(** * Verification of the financial-impact analysis engine

    Shallow embedding of [mcp_health/core/data_analysis.py]
    (class [HealthcareProductivityAnalyzer]) and the properties of its
    four computation steps: baseline metrics, AI-improved metrics, cost
    savings and the multi-year ROI projection.

    Modelling conventions.
    - Python [float] and [int] values are idealised as exact rationals
      ([Q]); rounding and float overflow are not part of the model.
      Python's [==], [>], [>=] on numbers are [Qeq_bool], [Qlt],
      [Qle_bool].
    - A division of two Python numbers raises [ZeroDivisionError] on a zero
      divisor; a division in which an operand is a [numpy.float64] does
      not, it yields an infinity or nan.  Where that difference decides
      what a function does ([calculate_cost_savings]) the function is
      modelled for both kinds of number, the numpy one over [np_float].
    - A [dict] with string keys is a [gmap string _]; [d[k]] on a missing
      key raises [KeyError].
    - Exceptions are an explicit [outcome]; code that writes to a dict
      object runs in a state monad over a heap of dict objects, so that
      aliasing between an argument and a result is visible.
    - A pandas [DataFrame] is its row count plus its numeric columns. *)

From Stdlib Require Import QArith Qpower ZArith Lia Lqa.
From stdpp Require Import gmap strings list fin_maps.

Open Scope Q_scope.

(** ** Exceptions and outcomes *)

(** The exceptions the modelled code can raise are Python built-ins.  The
    module defines no exception class of its own and has no [raise]
    statement; [Exception cls] stands for any other class, by name. *)
Inductive exn : Type :=
| KeyError (key : string)
| ZeroDivisionError
| IndexError
| Exception (cls : string).

Inductive outcome (A : Type) : Type :=
| Ok (a : A)
| Raise (e : exn).
Arguments Ok {A} a.
Arguments Raise {A} e.

Definition outcome_bind {A B : Type} (f : A → outcome B) (c : outcome A) : outcome B :=
  match c with
  | Ok a => f a
  | Raise e => Raise e
  end.

#[global] Instance outcome_ret : MRet outcome := @Ok.
#[global] Instance outcome_mbind : MBind outcome := @outcome_bind.

Definition is_Ok {A : Type} (c : outcome A) : bool :=
  match c with
  | Ok _ => true
  | Raise _ => false
  end.

(** ** Numbers *)

(** [a / b] on two Python numbers ([int] or [float]): a zero divisor
    raises.  When an operand is a numpy scalar the division is numpy's,
    [np_div] below, which does not raise. *)
Definition py_div (a b : Q) : outcome Q :=
  if Qeq_bool b 0 then Raise ZeroDivisionError else Ok (a / b).

(** [a > b] as a boolean. *)
Definition Qgt_bool (a b : Q) : bool := negb (Qle_bool a b).

(** [range(a, b)]. *)
Definition py_range (a b : Z) : list Z :=
  map (λ i : nat, (a + Z.of_nat i)%Z) (seq 0 (Z.to_nat (b - a))).

(** The built-in [sum(xs)]: starts from the integer 0 and adds from the
    left. *)
Definition py_sum (xs : list Q) : Q := fold_left Qplus xs 0.

(** ** numpy scalars *)

(** A [numpy.float64]: a finite value (exact, as for Python numbers), an
    infinity or nan.  The tables' sums and means, and so the metrics
    [calculate_baseline_metrics] computes from tables, are of this type.
    numpy arithmetic never raises: where Python raises
    [ZeroDivisionError] it yields an infinity or nan (with a
    [RuntimeWarning]).  An operation with one numpy operand and one Python
    number is numpy's.  Signed zeros are not modelled, so the sign of an
    infinity obtained from a zero divisor carries no meaning here. *)
Inductive np_float : Type :=
| NpFinite (q : Q)
| NpInf (negative : bool)
| NpNaN.

(** [np.isfinite(x)] *)
Definition np_is_finite (x : np_float) : bool :=
  match x with
  | NpFinite _ => true
  | _ => false
  end.

(** [-x] *)
Definition np_neg (x : np_float) : np_float :=
  match x with
  | NpFinite q => NpFinite (- q)
  | NpInf s => NpInf (negb s)
  | NpNaN => NpNaN
  end.

(** [x + y]: opposite infinities give nan. *)
Definition np_add (x y : np_float) : np_float :=
  match x, y with
  | NpFinite a, NpFinite b => NpFinite (a + b)
  | NpFinite _, NpInf s => NpInf s
  | NpInf s, NpFinite _ => NpInf s
  | NpInf s, NpInf t => if Bool.eqb s t then NpInf s else NpNaN
  | _, _ => NpNaN
  end.

(** [x - y] *)
Definition np_sub (x y : np_float) : np_float :=
  match x, y with
  | NpFinite a, NpFinite b => NpFinite (a - b)
  | _, _ => np_add x (np_neg y)
  end.

(** An infinity times a finite value: nan for 0, else by the sign. *)
Definition np_scale_inf (s : bool) (q : Q) : np_float :=
  match q ?= 0 with
  | Eq => NpNaN
  | Gt => NpInf s
  | Lt => NpInf (negb s)
  end.

(** [x * y] *)
Definition np_mul (x y : np_float) : np_float :=
  match x, y with
  | NpFinite a, NpFinite b => NpFinite (a * b)
  | NpFinite a, NpInf s => np_scale_inf s a
  | NpInf s, NpFinite b => np_scale_inf s b
  | NpInf s, NpInf t => NpInf (xorb s t)
  | _, _ => NpNaN
  end.

(** [x / y]: a zero divisor gives an infinity, or nan for [0 / 0]. *)
Definition np_div (x y : np_float) : np_float :=
  match x, y with
  | NpFinite a, NpFinite b =>
      if Qeq_bool b 0 then
        match a ?= 0 with
        | Eq => NpNaN
        | Gt => NpInf false
        | Lt => NpInf true
        end
      else NpFinite (a / b)
  | NpFinite _, NpInf _ => NpFinite 0
  | NpInf s, NpFinite b =>
      match b ?= 0 with
      | Lt => NpInf (negb s)
      | _ => NpInf s
      end
  | _, _ => NpNaN
  end.

(** The built-in [sum(xs)] on numpy scalars: [0 + x1 + ...]. *)
Definition np_sum (xs : list np_float) : np_float := fold_left np_add xs (NpFinite 0).

(** ** Dictionaries *)

(** [d[k]] for a dict held by value (read-only use). *)
Definition getitem {V : Type} (d : gmap string V) (k : string) : outcome V :=
  match d !! k with
  | Some v => Ok v
  | None => Raise (KeyError k)
  end.

(** Dict objects live in a heap; a Python variable of dict type holds a
    location.  A location that was never allocated reads as the empty
    dict: Python has no such reference, and every statement below is
    about allocated arguments. *)
Abbreviation loc := positive.
Abbreviation heap := (gmap loc (gmap string Q)).

Definition st (A : Type) : Type := heap → outcome A * heap.

Definition st_ret {A : Type} (a : A) : st A := λ h, (Ok a, h).

Definition st_bind {A B : Type} (f : A → st B) (c : st A) : st B :=
  λ h, match c h with
       | (Ok a, h') => f a h'
       | (Raise e, h') => (Raise e, h')
       end.

#[global] Instance st_mret : MRet st := @st_ret.
#[global] Instance st_mbind : MBind st := @st_bind.

(** An expression that touches no dict object. *)
Definition st_lift {A : Type} (c : outcome A) : st A := λ h, (c, h).

(** [d.copy()]: a new dict object with the same items. *)
Definition dict_copy (d : loc) : st loc :=
  λ h, let l := fresh (dom h) in (Ok l, <[l := h !!! d]> h).

(** [d[k]] through a reference. *)
Definition dict_getitem (d : loc) (k : string) : st Q :=
  λ h, (getitem (h !!! d) k, h).

(** [d[k] = v] through a reference. *)
Definition dict_setitem (d : loc) (k : string) (v : Q) : st unit :=
  λ h, (Ok tt, <[d := <[k := v]> (h !!! d)]> h).

(** ** The analyzer object *)

(** Tables: [df_index] is the number of rows, [df_columns] the numeric
    columns by name. *)
Record DataFrame : Type := {
  df_index : nat;
  df_columns : gmap string (list Q)
}.

(** Every column has one value per row, as pandas guarantees. *)
Definition df_wf (df : DataFrame) : Prop :=
  map_Forall (λ _ s, length s = df_index df) (df_columns df).

(** [pd.DataFrame()] *)
Definition empty_frame : DataFrame := {| df_index := 0; df_columns := ∅ |}.

(** [df.empty]: some axis has length 0. *)
Definition df_empty (df : DataFrame) : bool :=
  Nat.eqb (df_index df) 0 || Nat.eqb (size (df_columns df)) 0.

(** [df[c]] *)
Definition df_getitem (df : DataFrame) (c : string) : outcome (list Q) :=
  getitem (df_columns df) c.

(** [s.sum()] *)
Definition series_sum (s : list Q) : Q := fold_left Qplus s 0.

(** [s.mean()].  The code calls it on columns of non-empty frames only;
    for a column without values pandas yields NaN, which the model does
    not have ([Qdiv] by 0 is 0 there). *)
Definition series_mean (s : list Q) : Q :=
  series_sum s / inject_Z (Z.of_nat (length s)).

(** [s.iloc[0]] *)
Definition series_iloc0 (s : list Q) : outcome Q :=
  match s with
  | x :: _ => Ok x
  | [] => Raise IndexError
  end.

Record HealthcareProductivityAnalyzer : Type := {
  data_dir : string;
  data : gmap string DataFrame;
  ai_improvements : gmap string Q;
  japan_constants : gmap string Q
}.

(** [__init__] *)
Definition init (dir : string) : HealthcareProductivityAnalyzer := {|
  data_dir := dir;
  data := ∅;
  ai_improvements :=
    <["admin_efficiency_gain" := 0.52]>
    (<["processing_speed_gain" := 0.75]>
    (<["error_reduction" := 0.76]>
    (<["throughput_increase" := 0.24]>
    (<["cost_reduction" := 0.071]> ∅))));
  japan_constants :=
    <["aging_population_pct" := 0.291]>
    (<["total_healthcare_cost" := 45e12]>
    (<["admin_cost_pct" := 0.016]>
    (<["average_hourly_wage" := 3000]>
    (<["patients_per_worker_baseline" := 20]>
    (<["error_cost_multiplier" := 1.5]> ∅)))))
|}.

(** ** [calculate_ai_impact_metrics] *)

(** One assignment [ai_metrics[k] = baseline[k] * scale(self.ai_improvements[f])]
    where [scale g] is [1 - g] or [1 + g]: the right-hand side reads the
    baseline, then the factor, and only then is the item stored. *)
Definition assign_improved (self : HealthcareProductivityAnalyzer)
    (baseline ai_metrics : loc) (k f : string) (scale : Q → Q) : st unit :=
  b ← dict_getitem baseline k;
  g ← st_lift (getitem (ai_improvements self) f);
  dict_setitem ai_metrics k (b * scale g).

Definition calculate_ai_impact_metrics (self : HealthcareProductivityAnalyzer)
    (baseline : loc) : st loc :=
  ai_metrics ← dict_copy baseline;
  _ ← assign_improved self baseline ai_metrics
        "admin_hours_per_patient" "admin_efficiency_gain" (λ g, 1 - g);
  _ ← assign_improved self baseline ai_metrics
        "processing_time_hours" "processing_speed_gain" (λ g, 1 - g);
  _ ← assign_improved self baseline ai_metrics
        "billing_error_rate" "error_reduction" (λ g, 1 - g);
  _ ← assign_improved self baseline ai_metrics
        "patients_per_worker" "throughput_increase" (λ g, 1 + g);
  _ ← assign_improved self baseline ai_metrics
        "cost_per_patient" "cost_reduction" (λ g, 1 - g);
  mret ai_metrics.

(** ** [calculate_baseline_metrics] *)

(** [data.get(name, pd.DataFrame())] *)
Definition get_frame (data : gmap string DataFrame) (name : string) : DataFrame :=
  default empty_frame (data !! name).

(** The body of [calculate_baseline_metrics] once [data] is resolved.
    The two quotients are numpy divisions: the first is guarded by
    [total_workers > 0]; the second, [total_cost / total_patients], is not,
    and for a zero patient sum numpy yields inf or nan (a warning, no
    exception), values the model does not have ([Qdiv] by 0 is 0 there). *)
Definition baseline_metrics (self : HealthcareProductivityAnalyzer)
    (data : gmap string DataFrame) : outcome (gmap string Q) :=
  let admin_data := get_frame data "administrative_costs" in
  let workforce_data := get_frame data "workforce" in
  let patient_data := get_frame data "patient_volume" in
  let expenditure_data := get_frame data "medical_expenditure" in
  let baseline : gmap string Q := ∅ in
  (* Administrative efficiency metrics *)
  baseline ←
    (if negb (df_empty admin_data) then
       hours ← df_getitem admin_data "hours_per_patient";
       let baseline := <["admin_hours_per_patient" := series_mean hours]> baseline in
       time ← df_getitem admin_data "avg_processing_time";
       let baseline := <["processing_time_hours" := series_mean time]> baseline in
       errors ← df_getitem admin_data "error_rate";
       Ok (<["billing_error_rate" := series_mean errors]> baseline)
     else
       Ok (<["billing_error_rate" := 0.025]>
           (<["processing_time_hours" := 4.0]>
           (<["admin_hours_per_patient" := 2.0]> baseline))));
  (* Workforce productivity *)
  baseline ←
    (if negb (df_empty workforce_data) && negb (df_empty patient_data) then
       workers ← df_getitem workforce_data "total_workers";
       let total_workers := series_sum workers in
       patients ← df_getitem patient_data "total_patients";
       let total_patients := series_sum patients in
       Ok (<["patients_per_worker" :=
               if Qgt_bool total_workers 0 then total_patients / total_workers
               else 20]> baseline)
     else
       ppw ← getitem (japan_constants self) "patients_per_worker_baseline";
       Ok (<["patients_per_worker" := ppw]> baseline));
  (* Cost metrics *)
  if negb (df_empty expenditure_data) then
    expenditure ← df_getitem expenditure_data "total_expenditure";
    total_cost ← series_iloc0 expenditure;
    total_patients ←
      (if negb (df_empty patient_data) then
         patients ← df_getitem patient_data "total_patients";
         Ok (series_sum patients)
       else Ok 47000000);
    Ok (<["cost_per_patient" := total_cost / total_patients]> baseline)
  else
    total ← getitem (japan_constants self) "total_healthcare_cost";
    Ok (<["cost_per_patient" := total / 47000000]> baseline).

Section Loader.

(** [load_data] reads CSV files or draws synthetic tables; what it
    returns is outside the analysis engine and taken as given.  It also
    stores the tables in [self.data]. *)
Variable loaded_data : gmap string DataFrame.

Definition load_data (self : HealthcareProductivityAnalyzer)
    : HealthcareProductivityAnalyzer * gmap string DataFrame :=
  ({| data_dir := data_dir self; data := loaded_data;
      ai_improvements := ai_improvements self;
      japan_constants := japan_constants self |}, loaded_data).

(** The [data] argument is [None] by default; an empty dict is falsy. *)
Definition calculate_baseline_metrics (self : HealthcareProductivityAnalyzer)
    (data_arg : option (gmap string DataFrame))
    : HealthcareProductivityAnalyzer * outcome (gmap string Q) :=
  let data_arg := match data_arg with None => data self | Some d => d end in
  let '(self, data_arg) :=
    if Nat.eqb (size data_arg) 0 then load_data self else (self, data_arg) in
  (self, baseline_metrics self data_arg).

End Loader.

(** ** [calculate_cost_savings] *)

(** On metric dicts whose values are Python numbers, as in the unit tests:
    the throughput ratio is then a Python division. *)
Definition calculate_cost_savings (self : HealthcareProductivityAnalyzer)
    (baseline ai_metrics : gmap string Q) : outcome (gmap string Q) :=
  let annual_patients : Q := 47000000 in
  hourly_wage ← getitem (japan_constants self) "average_hourly_wage";
  let savings : gmap string Q := ∅ in
  (* Administrative labor savings *)
  b_hours ← getitem baseline "admin_hours_per_patient";
  a_hours ← getitem ai_metrics "admin_hours_per_patient";
  let admin_hours_saved := (b_hours - a_hours) * annual_patients in
  let savings := <["admin_labor_savings" := admin_hours_saved * hourly_wage]> savings in
  (* Error-related cost savings *)
  b_err ← getitem baseline "billing_error_rate";
  a_err ← getitem ai_metrics "billing_error_rate";
  let error_reduction := b_err - a_err in
  b_cost ← getitem baseline "cost_per_patient";
  b_err' ← getitem baseline "billing_error_rate";
  multiplier ← getitem (japan_constants self) "error_cost_multiplier";
  let baseline_error_cost := b_cost * b_err' * multiplier in
  let savings :=
    <["error_cost_savings" := error_reduction * baseline_error_cost * annual_patients]>
      savings in
  (* Additional revenue from increased throughput *)
  a_ppw ← getitem ai_metrics "patients_per_worker";
  b_ppw ← getitem baseline "patients_per_worker";
  ratio ← py_div a_ppw b_ppw;
  let additional_patients := annual_patients * (ratio - 1) in
  b_cost' ← getitem baseline "cost_per_patient";
  let avg_revenue_per_patient := b_cost' * 0.7 in
  let savings :=
    <["additional_revenue" := additional_patients * avg_revenue_per_patient]> savings in
  (* Processing efficiency savings *)
  b_time ← getitem baseline "processing_time_hours";
  a_time ← getitem ai_metrics "processing_time_hours";
  let processing_hours_saved := (b_time - a_time) * annual_patients * 0.1 in
  let savings :=
    <["processing_efficiency_savings" := processing_hours_saved * hourly_wage]> savings in
  (* Total annual savings *)
  s1 ← getitem savings "admin_labor_savings";
  s2 ← getitem savings "error_cost_savings";
  s3 ← getitem savings "additional_revenue";
  s4 ← getitem savings "processing_efficiency_savings";
  Ok (<["total_annual_savings" := py_sum [s1; s2; s3; s4]]> savings).

(** The same function on metric dicts whose values are numpy scalars, as
    [calculate_baseline_metrics] computes them from tables.  The constants
    and literals are Python numbers; every operation has a numpy operand and
    is numpy's, so the throughput ratio cannot raise. *)
Definition calculate_cost_savings_numpy (self : HealthcareProductivityAnalyzer)
    (baseline ai_metrics : gmap string np_float) : outcome (gmap string np_float) :=
  let annual_patients : np_float := NpFinite 47000000 in
  hourly_wage ← getitem (japan_constants self) "average_hourly_wage";
  let savings : gmap string np_float := ∅ in
  (* Administrative labor savings *)
  b_hours ← getitem baseline "admin_hours_per_patient";
  a_hours ← getitem ai_metrics "admin_hours_per_patient";
  let admin_hours_saved := np_mul (np_sub b_hours a_hours) annual_patients in
  let savings :=
    <["admin_labor_savings" := np_mul admin_hours_saved (NpFinite hourly_wage)]> savings in
  (* Error-related cost savings *)
  b_err ← getitem baseline "billing_error_rate";
  a_err ← getitem ai_metrics "billing_error_rate";
  let error_reduction := np_sub b_err a_err in
  b_cost ← getitem baseline "cost_per_patient";
  b_err' ← getitem baseline "billing_error_rate";
  multiplier ← getitem (japan_constants self) "error_cost_multiplier";
  let baseline_error_cost := np_mul (np_mul b_cost b_err') (NpFinite multiplier) in
  let savings :=
    <["error_cost_savings" :=
        np_mul (np_mul error_reduction baseline_error_cost) annual_patients]> savings in
  (* Additional revenue from increased throughput *)
  a_ppw ← getitem ai_metrics "patients_per_worker";
  b_ppw ← getitem baseline "patients_per_worker";
  let ratio := np_div a_ppw b_ppw in
  let additional_patients := np_mul annual_patients (np_sub ratio (NpFinite 1)) in
  b_cost' ← getitem baseline "cost_per_patient";
  let avg_revenue_per_patient := np_mul b_cost' (NpFinite 0.7) in
  let savings :=
    <["additional_revenue" := np_mul additional_patients avg_revenue_per_patient]>
      savings in
  (* Processing efficiency savings *)
  b_time ← getitem baseline "processing_time_hours";
  a_time ← getitem ai_metrics "processing_time_hours";
  let processing_hours_saved :=
    np_mul (np_mul (np_sub b_time a_time) annual_patients) (NpFinite 0.1) in
  let savings :=
    <["processing_efficiency_savings" :=
        np_mul processing_hours_saved (NpFinite hourly_wage)]> savings in
  (* Total annual savings *)
  s1 ← getitem savings "admin_labor_savings";
  s2 ← getitem savings "error_cost_savings";
  s3 ← getitem savings "additional_revenue";
  s4 ← getitem savings "processing_efficiency_savings";
  Ok (<["total_annual_savings" := np_sum [s1; s2; s3; s4]]> savings).

(** ** [calculate_roi_analysis] *)

(** One entry of [yearly_analysis]. *)
Record YearRecord : Type := {
  year : Z;
  savings : Q;
  costs : Q;
  net_benefit : Q;
  cumulative_net : Q;
  roi_percentage : Q
}.

(** The returned dict; its ['net_benefit'] item is [roi_net_benefit] here,
    the name being taken by the yearly records. *)
Record ROIAnalysis : Type := {
  yearly_analysis : list YearRecord;
  total_roi_percentage : Q;
  payback_period_years : option Z;
  total_investment : Q;
  total_savings : Q;
  roi_net_benefit : Q
}.

(** A [for] loop whose body may raise. *)
Fixpoint for_each {A S : Type} (body : S → A → outcome S) (xs : list A) (s : S)
    : outcome S :=
  match xs with
  | [] => Ok s
  | x :: xs' => s' ← body s x; for_each body xs' s'
  end.

(** AI implementation costs: [(upfront_cost, annual_maintenance)]. *)
Definition implementation_costs (self : HealthcareProductivityAnalyzer) : outcome (Q * Q) :=
  if match data self !! "ai_costs" with
     | Some df => negb (df_empty df)
     | None => false
     end
  then
    df ← getitem (data self) "ai_costs";
    upfront ← df_getitem df "upfront_cost";
    df' ← getitem (data self) "ai_costs";
    maintenance ← df_getitem df' "annual_maintenance";
    Ok (series_sum upfront, series_sum maintenance)
  else Ok (3e12, 0.6e12).

(** [(cumulative / upfront_cost) * 100 if upfront_cost > 0 else 0] *)
Definition roi_of (cumulative upfront_cost : Q) : outcome Q :=
  if Qgt_bool upfront_cost 0 then
    q ← py_div cumulative upfront_cost; Ok (q * 100)
  else Ok 0.

(** The loop variables [cumulative_savings], [cumulative_costs] and
    [yearly_analysis]. *)
Record roi_loop_state : Type := {
  cumulative_savings : Q;
  cumulative_costs : Q;
  analysis_so_far : list YearRecord
}.

(** Body of [for year in range(1, years + 1)]. *)
Definition roi_year (annual_savings upfront_cost annual_maintenance : Q)
    (s : roi_loop_state) (y : Z) : outcome roi_loop_state :=
  let yearly_savings := annual_savings * 1.05 ^ (y - 1) in
  let yearly_costs := annual_maintenance in
  let net_yearly_benefit := yearly_savings - yearly_costs in
  let cumulative_savings := cumulative_savings s + net_yearly_benefit in
  let cumulative_costs := cumulative_costs s + yearly_costs in
  roi ← roi_of cumulative_savings upfront_cost;
  Ok {| cumulative_savings := cumulative_savings;
        cumulative_costs := cumulative_costs;
        analysis_so_far := analysis_so_far s ++
          [ {| year := y; savings := yearly_savings; costs := yearly_costs;
               net_benefit := net_yearly_benefit;
               cumulative_net := cumulative_savings;
               roi_percentage := roi |} ] |}.

(** The payback loop, [break] included: the first record with
    [cumulative_net >= 0] while [payback_years is None]. *)
Fixpoint payback_loop (analyses : list YearRecord) (payback_years : option Z)
    : option Z :=
  match analyses with
  | [] => payback_years
  | analysis :: rest =>
      if Qle_bool 0 (cumulative_net analysis)
         && match payback_years with None => true | Some _ => false end
      then Some (year analysis)
      else payback_loop rest payback_years
  end.

Definition calculate_roi_analysis (self : HealthcareProductivityAnalyzer)
    (savings : gmap string Q) (years : Z) : outcome ROIAnalysis :=
  '(upfront_cost, annual_maintenance) ← implementation_costs self;
  annual_savings ← getitem savings "total_annual_savings";
  s ← for_each (roi_year annual_savings upfront_cost annual_maintenance)
        (py_range 1 (years + 1))
        {| cumulative_savings := 0; cumulative_costs := upfront_cost;
           analysis_so_far := [] |};
  let payback_years := payback_loop (analysis_so_far s) None in
  total_roi ← roi_of (cumulative_savings s) upfront_cost;
  Ok {| yearly_analysis := analysis_so_far s;
        total_roi_percentage := total_roi;
        payback_period_years := payback_years;
        total_investment := upfront_cost + annual_maintenance * inject_Z years;
        total_savings := cumulative_savings s + upfront_cost;
        roi_net_benefit := cumulative_savings s |}.

(** ** Auxiliary definitions for the statements *)

(** The five recognised metric names, in the order the code reads them. *)
Definition metric_fields : list string :=
  ["admin_hours_per_patient"; "processing_time_hours"; "billing_error_rate";
   "patients_per_worker"; "cost_per_patient"].

Definition factor_names : list string :=
  ["admin_efficiency_gain"; "processing_speed_gain"; "error_reduction";
   "throughput_increase"; "cost_reduction"].

(** The constants [calculate_cost_savings] reads. *)
Definition cost_constants : list string :=
  ["average_hourly_wage"; "error_cost_multiplier"].

(** All of the keys [ks] are present in [d]. *)
Definition has_keys {V : Type} (d : gmap string V) (ks : list string) : bool :=
  forallb (λ k, match d !! k with Some _ => true | None => false end) ks.

(** What the five assignments compute, as a function of the baseline's
    items: a value-level view of [calculate_ai_impact_metrics] used to
    reason about its runs. *)
Definition improved_item (self : HealthcareProductivityAnalyzer)
    (b m : gmap string Q) (k f : string) (scale : Q → Q) : outcome (gmap string Q) :=
  x ← getitem b k;
  g ← getitem (ai_improvements self) f;
  Ok (<[k := x * scale g]> m).

Definition improved_items (self : HealthcareProductivityAnalyzer)
    (b : gmap string Q) : outcome (gmap string Q) :=
  m ← improved_item self b b "admin_hours_per_patient" "admin_efficiency_gain" (λ g, 1 - g);
  m ← improved_item self b m "processing_time_hours" "processing_speed_gain" (λ g, 1 - g);
  m ← improved_item self b m "billing_error_rate" "error_reduction" (λ g, 1 - g);
  m ← improved_item self b m "patients_per_worker" "throughput_increase" (λ g, 1 + g);
  improved_item self b m "cost_per_patient" "cost_reduction" (λ g, 1 - g).


(** Net benefit of year [y]: that year's savings less the yearly costs. *)
Definition yearly_net (annual_savings annual_maintenance : Q) (y : Z) : Q :=
  annual_savings * 1.05 ^ (y - 1) - annual_maintenance.

(** Running sum of the net benefits of years [1..y], starting from 0. *)
Definition running_net (annual_savings annual_maintenance : Q) (y : Z) : Q :=
  fold_left Qplus (map (yearly_net annual_savings annual_maintenance) (py_range 1 (y + 1))) 0.

(** The value of [roi_of], which never raises (see [roi_of_value]). *)
Definition roi_value (cumulative upfront_cost : Q) : Q :=
  if Qgt_bool upfront_cost 0 then cumulative / upfront_cost * 100 else 0.

(** The record appended in year [y]. *)
Definition year_entry (annual_savings upfront_cost annual_maintenance : Q) (y : Z)
    : YearRecord :=
  {| year := y;
     savings := annual_savings * 1.05 ^ (y - 1);
     costs := annual_maintenance;
     net_benefit := yearly_net annual_savings annual_maintenance y;
     cumulative_net := running_net annual_savings annual_maintenance y;
     roi_percentage :=
       roi_value (running_net annual_savings annual_maintenance y) upfront_cost |}.

(** A table that is empty, or else has the columns [cols]. *)
Definition frame_has (df : DataFrame) (cols : list string) : bool :=
  df_empty df || has_keys (df_columns df) cols.

(** The tables and constants have what [calculate_baseline_metrics]
    reads from them. *)
Definition baseline_inputs_ok (self : HealthcareProductivityAnalyzer)
    (tables : gmap string DataFrame) : bool :=
  frame_has (get_frame tables "administrative_costs")
    ["hours_per_patient"; "avg_processing_time"; "error_rate"]
  && frame_has (get_frame tables "workforce") ["total_workers"]
  && frame_has (get_frame tables "patient_volume") ["total_patients"]
  && frame_has (get_frame tables "medical_expenditure") ["total_expenditure"]
  && has_keys (japan_constants self) ["patients_per_worker_baseline"; "total_healthcare_cost"].

(** The tables [calculate_baseline_metrics] works on: its argument, or
    [self.data] when that is [None], or what [load_data] returns when the
    dict so chosen is empty. *)
Definition tables_used (loaded_data : gmap string DataFrame)
    (self : HealthcareProductivityAnalyzer) (data_arg : option (gmap string DataFrame))
    : gmap string DataFrame :=
  let d := match data_arg with None => data self | Some d => d end in
  if Nat.eqb (size d) 0 then loaded_data else d.

(** The dict a read of [calculate_cost_savings] goes to. *)
Inductive savings_source : Type := FromConstants | FromBaseline | FromImproved.

(** The reads of [calculate_cost_savings] up to the throughput ratio, in
    the order the code performs them. *)
Definition reads_before_ratio : list (savings_source * string) :=
  [(FromConstants, "average_hourly_wage");
   (FromBaseline, "admin_hours_per_patient");
   (FromImproved, "admin_hours_per_patient");
   (FromBaseline, "billing_error_rate");
   (FromImproved, "billing_error_rate");
   (FromBaseline, "cost_per_patient");
   (FromBaseline, "billing_error_rate");
   (FromConstants, "error_cost_multiplier");
   (FromImproved, "patients_per_worker");
   (FromBaseline, "patients_per_worker")].

(** The reads that follow the ratio. *)
Definition reads_after_ratio : list (savings_source * string) :=
  [(FromBaseline, "cost_per_patient");
   (FromBaseline, "processing_time_hours");
   (FromImproved, "processing_time_hours")].

(** The read finds no item. *)
Definition is_missing {V : Type} (self : HealthcareProductivityAnalyzer)
    (baseline ai_metrics : gmap string V) (r : savings_source * string) : bool :=
  match r.1 with
  | FromConstants => match japan_constants self !! r.2 with Some _ => false | None => true end
  | FromBaseline => match baseline !! r.2 with Some _ => false | None => true end
  | FromImproved => match ai_metrics !! r.2 with Some _ => false | None => true end
  end.

(** The key of the first read of [reads] that finds no item. *)
Definition first_missing {V : Type} (self : HealthcareProductivityAnalyzer)
    (baseline ai_metrics : gmap string V) (reads : list (savings_source * string))
    : option string :=
  snd <$> find (is_missing self baseline ai_metrics) reads.

(** ** Concrete inputs *)

(** The analyzer as constructed by default, before any data is loaded. *)
Definition analyzer0 : HealthcareProductivityAnalyzer := init "data/".

(** The baseline of the unit tests, with one extra item. *)
Definition baseline_test : gmap string Q :=
  <["admin_hours_per_patient" := 2.0]>
  (<["processing_time_hours" := 4.0]>
  (<["billing_error_rate" := 0.025]>
  (<["patients_per_worker" := 20]>
  (<["cost_per_patient" := 250000]>
  (<["region" := 13]> ∅))))).

(** A baseline without ['cost_per_patient']. *)
Definition baseline_no_cost : gmap string Q := delete "cost_per_patient" baseline_test.

(** A baseline whose billing error rate is already zero. *)
Definition baseline_no_errors : gmap string Q :=
  <["billing_error_rate" := 0]> baseline_test.

(** A heap holding one dict at location 1. *)
Definition heap_of (d : gmap string Q) : heap := {[ 1%positive := d ]}.

(** A savings dict as [calculate_roi_analysis] reads it. *)
Definition savings_test : gmap string Q := {[ "total_annual_savings" := 1e12 ]}.

(** An analyzer whose cost table lists no upfront cost. *)
Definition analyzer_no_upfront : HealthcareProductivityAnalyzer := {|
  data_dir := "data/";
  data := {[ "ai_costs" :=
             {| df_index := 2;
                df_columns := <["upfront_cost" := [0; 0]]>
                              {[ "annual_maintenance" := [0.2e12; 0.1e12] ]} |} ]};
  ai_improvements := ai_improvements analyzer0;
  japan_constants := japan_constants analyzer0
|}.

(** The improved metrics that go with [baseline_test]. *)
Definition improved_test : gmap string Q :=
  <["admin_hours_per_patient" := 1.0]>
  (<["processing_time_hours" := 1.0]>
  (<["billing_error_rate" := 0.006]>
  (<["patients_per_worker" := 24.8]>
  (<["cost_per_patient" := 232250]> ∅)))).

(** A baseline with no throughput at all. *)
Definition baseline_idle : gmap string Q :=
  <["patients_per_worker" := 0]> baseline_test.

(** Tables with an expenditure row but no patient volumes. *)
Definition tables_expenditure_only : gmap string DataFrame :=
  {[ "medical_expenditure" :=
       {| df_index := 1;
          df_columns := <["year" := [2023]]> {[ "total_expenditure" := [90e12] ]} |} ]}.

(** The tables of the unit tests. *)
Definition tables_test : gmap string DataFrame :=
  <["administrative_costs" :=
      {| df_index := 3;
         df_columns := <["hours_per_patient" := [2.0; 2.5; 1.8]]>
                       (<["avg_processing_time" := [4.0; 4.5; 3.5]]>
                       {[ "error_rate" := [0.025; 0.020; 0.030] ]}) |}]>
  (<["workforce" :=
      {| df_index := 3;
         df_columns := {[ "total_workers" := [10000; 8000; 12000] ]} |}]>
  (<["patient_volume" :=
      {| df_index := 3;
         df_columns := {[ "total_patients" := [1000000; 800000; 1200000] ]} |}]>
  {[ "medical_expenditure" :=
      {| df_index := 1;
         df_columns := <["year" := [2023]]> {[ "total_expenditure" := [45e12] ]} |} ]})).

(** The idle baseline as numpy scalars, and what the transformer makes
    of it. *)
Definition baseline_idle_numpy : gmap string np_float :=
  <["admin_hours_per_patient" := NpFinite 2.0]>
  (<["processing_time_hours" := NpFinite 4.0]>
  (<["billing_error_rate" := NpFinite 0.025]>
  (<["patients_per_worker" := NpFinite 0]>
  (<["cost_per_patient" := NpFinite 250000]> ∅)))).

Definition improved_idle_numpy : gmap string np_float :=
  <["admin_hours_per_patient" := NpFinite (2.0 * (1 - 0.52))]>
  (<["processing_time_hours" := NpFinite (4.0 * (1 - 0.75))]>
  (<["billing_error_rate" := NpFinite (0.025 * (1 - 0.76))]>
  (<["patients_per_worker" := NpFinite (0 * (1 + 0.24))]>
  (<["cost_per_patient" := NpFinite (250000 * (1 - 0.071))]> ∅)))).

(** ** Auxiliary definitions for further properties *)

(** The ten dict reads of [calculate_ai_impact_metrics] in the order the
    code performs them: [true] marks a read of the baseline, [false] a read
    of [self.ai_improvements]. *)
Definition impact_reads : list (bool * string) :=
  [(true, "admin_hours_per_patient"); (false, "admin_efficiency_gain");
   (true, "processing_time_hours"); (false, "processing_speed_gain");
   (true, "billing_error_rate"); (false, "error_reduction");
   (true, "patients_per_worker"); (false, "throughput_increase");
   (true, "cost_per_patient"); (false, "cost_reduction")].

(** The first of these reads that finds no item. *)
Definition first_missing_read (self : HealthcareProductivityAnalyzer)
    (b : gmap string Q) : option (bool * string) :=
  find (λ r : bool * string,
          match (if r.1 then b else ai_improvements self) !! r.2 with
          | Some _ => false
          | None => true
          end) impact_reads.

(** The metrics [calculate_cost_savings] reads from its second argument:
    all but ['cost_per_patient']. *)
Definition improved_fields_read : list string :=
  ["admin_hours_per_patient"; "billing_error_rate"; "patients_per_worker";
   "processing_time_hours"].

(** The keys of a savings breakdown. *)
Definition savings_fields : list string :=
  ["admin_labor_savings"; "error_cost_savings"; "additional_revenue";
   "processing_efficiency_savings"; "total_annual_savings"].

(** Item [k] of a dict of numbers, 0 when absent (for statements only). *)
Definition item (d : gmap string Q) (k : string) : Q := default 0 (d !! k).

(** The five transform rules: metric, factor and the scaling applied. *)
Definition improvement_rules : list (string * string * (Q → Q)) :=
  [("admin_hours_per_patient", "admin_efficiency_gain", λ g, 1 - g);
   ("processing_time_hours", "processing_speed_gain", λ g, 1 - g);
   ("billing_error_rate", "error_reduction", λ g, 1 - g);
   ("patients_per_worker", "throughput_increase", λ g, 1 + g);
   ("cost_per_patient", "cost_reduction", λ g, 1 - g)].

(** Every item of [d] named in [ks] satisfies the test [P]. *)
Definition all_items (P : Q → bool) (d : gmap string Q) (ks : list string) : bool :=
  forallb (λ k, P (item d k)) ks.

(** The factors that are fractional reductions. *)
Definition reduction_factors : list string :=
  ["admin_efficiency_gain"; "processing_speed_gain"; "error_reduction";
   "cost_reduction"].

(** The heap the transformer leaves when run on [baseline_test] with the
    default factors. *)
Definition heap_after_test : heap :=
  (calculate_ai_impact_metrics analyzer0 1%positive (heap_of baseline_test)).2.

(** The value of an outcome that is known to be [Ok]. *)
Definition from_ok {A : Type} (d : A) (c : outcome A) : A :=
  match c with
  | Ok a => a
  | Raise _ => d
  end.

(** The improved metrics derived from [baseline_test] and the savings
    computed from the two. *)
Definition improved_from_test : gmap string Q :=
  from_ok ∅ (improved_items analyzer0 baseline_test).

Definition savings_from_test : gmap string Q :=
  from_ok ∅ (calculate_cost_savings analyzer0 baseline_test improved_from_test).

(** An analyzer whose cost table has the maintenance of
    [analyzer_no_upfront] and a positive upfront cost. *)
Definition analyzer_upfront : HealthcareProductivityAnalyzer := {|
  data_dir := "data/";
  data := {[ "ai_costs" :=
             {| df_index := 2;
                df_columns := <["upfront_cost" := [1e12; 2e12]]>
                              {[ "annual_maintenance" := [0.2e12; 0.1e12] ]} |} ]};
  ai_improvements := ai_improvements analyzer0;
  japan_constants := japan_constants analyzer0
|}.


(** * Proofs *)

(** ** Running the heap monad *)

Lemma heap_total_lookup (h : heap) (l : loc) (d : gmap string Q) :
  h !! l = Some d → h !!! l = d.
Proof. intros H. by rewrite lookup_total_alt, H. Qed.

Lemma fresh_loc_unallocated (h : heap) : h !! fresh (dom h) = None.
Proof. apply not_elem_of_dom, is_fresh. Qed.

Lemma fresh_loc_ne (h : heap) (l : loc) (d : gmap string Q) :
  h !! l = Some d → fresh (dom h) ≠ l.
Proof.
  intros H Heq. rewrite <- Heq in H.
  by rewrite fresh_loc_unallocated in H.
Qed.

Lemma assign_improved_run self (h : heap) bl b l m k f scale :
  h !! bl = Some b → l ≠ bl →
  assign_improved self bl l k f scale (<[l := m]> h) =
    match improved_item self b m k f scale with
    | Ok m' => (Ok tt, <[l := m']> h)
    | Raise e => (Raise e, <[l := m]> h)
    end.
Proof.
  intros Hb Hne.
  unfold assign_improved, improved_item, mbind, st_mbind, st_bind,
    outcome_mbind, outcome_bind, dict_getitem, st_lift, dict_setitem.
  rewrite lookup_total_insert_ne by done.
  rewrite (heap_total_lookup _ _ _ Hb).
  destruct (getitem b k); [|done].
  destruct (getitem (ai_improvements self) f); [|done].
  by rewrite lookup_total_insert_eq, insert_insert_eq.
Qed.

Lemma assign_improved_bind {A : Type} self (h : heap) bl b l m k f scale
    (rest : unit → st A) :
  h !! bl = Some b → l ≠ bl →
  (assign_improved self bl l k f scale ≫= rest) (<[l := m]> h) =
    match improved_item self b m k f scale with
    | Ok m' => rest tt (<[l := m']> h)
    | Raise e => (Raise e, <[l := m]> h)
    end.
Proof.
  intros Hb Hne. unfold mbind at 1, st_mbind, st_bind.
  rewrite (assign_improved_run self h bl b) by done.
  by destruct (improved_item self b m k f scale).
Qed.

(** A run allocates one new dict and writes to nothing else; it returns
    the new dict exactly when the value-level view succeeds. *)
Lemma calculate_ai_impact_metrics_run self (h : heap) bl b :
  h !! bl = Some b →
  ∃ m, calculate_ai_impact_metrics self bl h =
         (match improved_items self b with
          | Ok _ => Ok (fresh (dom h))
          | Raise e => Raise e
          end, <[fresh (dom h) := m]> h)
       ∧ (∀ m', improved_items self b = Ok m' → m = m').
Proof.
  intros Hb.
  pose proof (fresh_loc_ne _ _ _ Hb) as Hne.
  unfold calculate_ai_impact_metrics, improved_items.
  unfold mbind at 1, st_mbind, st_bind at 1, dict_copy; cbv zeta.
  rewrite (heap_total_lookup _ _ _ Hb).
  repeat
    (rewrite (assign_improved_bind self h bl b) by done;
     match goal with
     | |- context [improved_item ?s ?b ?m ?k ?f ?sc] =>
         destruct (improved_item s b m k f sc);
         cbn [mbind outcome_mbind outcome_bind];
         [| eexists; split; [reflexivity | intros ?; discriminate]]
     end).
  eexists; split; [reflexivity | by intros ? [= ->]].
Qed.

Lemma getitem_Ok {V : Type} (d : gmap string V) k v :
  getitem d k = Ok v ↔ d !! k = Some v.
Proof. unfold getitem. destruct (d !! k); split; congruence. Qed.

Lemma getitem_Raise {V : Type} (d : gmap string V) k e :
  getitem d k = Raise e ↔ d !! k = None ∧ e = KeyError k.
Proof.
  unfold getitem. destruct (d !! k); split; try congruence.
  - intros [? _]; congruence.
  - by intros [= <-].
  - by intros [_ ->].
Qed.

Lemma bind_Ok_inv {A B : Type} (c : outcome A) (f : A → outcome B) (y : B) :
  c ≫= f = Ok y → ∃ x, c = Ok x ∧ f x = Ok y.
Proof. destruct c; intros H; [eauto | discriminate H]. Qed.

Lemma bind_Raise_inv {A B : Type} (c : outcome A) (f : A → outcome B) e :
  c ≫= f = Raise e → c = Raise e ∨ ∃ x, c = Ok x ∧ f x = Raise e.
Proof. destruct c; intros H; [right; eauto | left; by injection H as ->]. Qed.

Lemma improved_item_Ok_inv self b m k f scale m' :
  improved_item self b m k f scale = Ok m' →
  ∃ x g, b !! k = Some x ∧ ai_improvements self !! f = Some g
         ∧ m' = <[k := x * scale g]> m.
Proof.
  unfold improved_item. intros H.
  apply bind_Ok_inv in H as (x & Hx & H).
  apply bind_Ok_inv in H as (g & Hg & H).
  apply getitem_Ok in Hx, Hg. injection H as <-. eauto.
Qed.

Lemma improved_item_Raise_inv self b m k f scale e :
  improved_item self b m k f scale = Raise e →
  (b !! k = None ∧ e = KeyError k)
  ∨ (ai_improvements self !! f = None ∧ e = KeyError f).
Proof.
  unfold improved_item. intros H.
  apply bind_Raise_inv in H as [H | (x & _ & H)].
  - left. by apply getitem_Raise.
  - apply bind_Raise_inv in H as [H | (g & _ & H)]; [|discriminate].
    right. by apply getitem_Raise.
Qed.

Lemma improved_items_Ok_inv self b m :
  improved_items self b = Ok m →
  ∃ x1 g1 x2 g2 x3 g3 x4 g4 x5 g5,
    b !! "admin_hours_per_patient" = Some x1
    ∧ ai_improvements self !! "admin_efficiency_gain" = Some g1
    ∧ b !! "processing_time_hours" = Some x2
    ∧ ai_improvements self !! "processing_speed_gain" = Some g2
    ∧ b !! "billing_error_rate" = Some x3
    ∧ ai_improvements self !! "error_reduction" = Some g3
    ∧ b !! "patients_per_worker" = Some x4
    ∧ ai_improvements self !! "throughput_increase" = Some g4
    ∧ b !! "cost_per_patient" = Some x5
    ∧ ai_improvements self !! "cost_reduction" = Some g5
    ∧ m = <["cost_per_patient" := x5 * (1 - g5)]>
          (<["patients_per_worker" := x4 * (1 + g4)]>
          (<["billing_error_rate" := x3 * (1 - g3)]>
          (<["processing_time_hours" := x2 * (1 - g2)]>
          (<["admin_hours_per_patient" := x1 * (1 - g1)]> b)))).
Proof.
  unfold improved_items. intros H.
  apply bind_Ok_inv in H as (m1 & H1 & H).
  apply bind_Ok_inv in H as (m2 & H2 & H).
  apply bind_Ok_inv in H as (m3 & H3 & H).
  apply bind_Ok_inv in H as (m4 & H4 & H).
  apply improved_item_Ok_inv in H1 as (x1 & g1 & ? & ? & ->).
  apply improved_item_Ok_inv in H2 as (x2 & g2 & ? & ? & ->).
  apply improved_item_Ok_inv in H3 as (x3 & g3 & ? & ? & ->).
  apply improved_item_Ok_inv in H4 as (x4 & g4 & ? & ? & ->).
  apply improved_item_Ok_inv in H as (x5 & g5 & ? & ? & ->).
  by exists x1, g1, x2, g2, x3, g3, x4, g4, x5, g5.
Qed.

(** The transformer fails only with a [KeyError], for a metric missing
    from the baseline or a factor missing from [ai_improvements]. *)
Lemma improved_items_Raise_inv self b e :
  improved_items self b = Raise e →
  ∃ k, e = KeyError k
       ∧ ((k ∈ metric_fields ∧ b !! k = None)
          ∨ (k ∈ factor_names ∧ ai_improvements self !! k = None)).
Proof.
  unfold improved_items, metric_fields, factor_names. intros H.
  repeat
    (apply bind_Raise_inv in H as [H | (? & _ & H)];
     [apply improved_item_Raise_inv in H as [[? ->] | [? ->]];
      eexists; (split; [reflexivity|]); [left | right]; (split; [set_solver | done]) |]).
  apply improved_item_Raise_inv in H as [[? ->] | [? ->]];
    eexists; (split; [reflexivity|]); [left | right]; (split; [set_solver | done]).
Qed.

Lemma improved_items_total self b :
  (∀ k, k ∈ metric_fields → is_Some (b !! k)) →
  (∀ f, f ∈ factor_names → is_Some (ai_improvements self !! f)) →
  ∃ m, improved_items self b = Ok m.
Proof.
  intros Hb Hf. destruct (improved_items self b) as [m | e] eqn:E; [eauto|].
  apply improved_items_Raise_inv in E as (k & _ & [[Hk Hn] | [Hk Hn]]).
  - destruct (Hb k Hk) as [? ?]; congruence.
  - destruct (Hf k Hk) as [? ?]; congruence.
Qed.

Lemma improved_items_dom self b m :
  improved_items self b = Ok m → dom m = dom b.
Proof.
  intros H.
  apply improved_items_Ok_inv in H
    as (x1 & g1 & x2 & g2 & x3 & g3 & x4 & g4 & x5 & g5
        & H1 & _ & H2 & _ & H3 & _ & H4 & _ & H5 & _ & ->).
  assert (Hin : ∀ (k : string) (x v : Q) (d : gmap string Q),
            b !! k = Some x → dom d = dom b → dom (<[k := v]> d) = dom b).
  { intros k x v d Hk Hd. rewrite dom_insert_L, Hd.
    apply (elem_of_dom_2 (D := gset string)) in Hk.
    apply subseteq_union_1_L, singleton_subseteq_l, Hk. }
  eauto 10 using Hin.
Qed.

Lemma improved_items_other self b m k :
  improved_items self b = Ok m → k ∉ metric_fields → m !! k = b !! k.
Proof.
  intros H Hk.
  apply improved_items_Ok_inv in H
    as (x1 & g1 & x2 & g2 & x3 & g3 & x4 & g4 & x5 & g5
        & _ & _ & _ & _ & _ & _ & _ & _ & _ & _ & ->).
  unfold metric_fields in Hk.
  rewrite !lookup_insert_ne; [done | set_solver ..].
Qed.

(** ** Properties of [calculate_ai_impact_metrics] *)

Lemma has_keys_spec {V : Type} (d : gmap string V) ks :
  has_keys d ks = true ↔ ∀ k, k ∈ ks → is_Some (d !! k).
Proof.
  unfold has_keys. rewrite forallb_forall. split.
  - intros H k Hk. apply list_elem_of_In, H in Hk.
    destruct (d !! k); [eauto | discriminate].
  - intros H k Hk. apply list_elem_of_In, H in Hk as [v ->]. done.
Qed.

Lemma has_keys_false {V : Type} (d : gmap string V) ks :
  has_keys d ks = false → ∃ k, k ∈ ks ∧ d !! k = None.
Proof.
  unfold has_keys. induction ks as [|k ks IH]; [discriminate|]. cbn.
  destruct (d !! k) eqn:E; cbn.
  - intros H. destruct (IH H) as (k' & ? & ?). exists k'. split; [by right | done].
  - intros _. exists k. split; [by left | done].
Qed.

(** C10. The transformer leaves its baseline argument, and every other
    dict that existed before the call, unchanged; the dict it returns is a
    new object in which every key of the baseline other than the five
    metric names keeps the baseline's value. *)
Theorem calculate_ai_impact_metrics_frame self (h : heap) bl b r h' :
  h !! bl = Some b →
  calculate_ai_impact_metrics self bl h = (r, h') →
  h' !! bl = Some b
  ∧ (∀ l d, h !! l = Some d → h' !! l = Some d)
  ∧ (∀ l', r = Ok l' →
       l' ≠ bl ∧ h !! l' = None
       ∧ ∃ m, h' !! l' = Some m
              ∧ ∀ k v, k ∉ metric_fields → b !! k = Some v → m !! k = Some v).
Proof.
  intros Hb Hrun.
  destruct (calculate_ai_impact_metrics_run self h bl b Hb) as (m & Hm & Hok).
  rewrite Hrun in Hm. injection Hm as -> ->.
  assert (Hframe : ∀ l d, h !! l = Some d → <[fresh (dom h) := m]> h !! l = Some d).
  { intros l d Hl. rewrite lookup_insert_ne; [done|]. by eapply fresh_loc_ne. }
  split; [by apply Hframe|]. split; [done|].
  intros l' Hl'.
  destruct (improved_items self b) as [m'|] eqn:E; [|discriminate].
  injection Hl' as <-. rewrite <- (Hok m' eq_refl) in E.
  split; [by eapply fresh_loc_ne|]. split; [apply fresh_loc_unallocated|].
  exists m. split; [apply lookup_insert_eq|].
  intros k v Hk Hv. by rewrite (improved_items_other self b m k E Hk).
Qed.

Lemma calculate_ai_impact_metrics_frame_witness :
  ∃ r h',
    heap_of baseline_test !! 1%positive = Some baseline_test
    ∧ calculate_ai_impact_metrics analyzer0 1%positive (heap_of baseline_test) = (r, h')
    ∧ h' !! 1%positive = Some baseline_test.
Proof.
  eexists _, _. split; [reflexivity|]. split; [apply surjective_pairing|].
  exact (proj1 (calculate_ai_impact_metrics_frame analyzer0 (heap_of baseline_test)
                  1%positive baseline_test _ _ eq_refl (surjective_pairing _))).
Defined.

(** C3, as amended.  When one of the five metric fields is missing from
    the baseline the transformer raises [KeyError] and returns no mapping
    (the key named is a metric missing from the baseline or a factor
    missing from [ai_improvements]), and the baseline is left as it was.
    When it does return, the improved mapping has exactly the keys of the
    baseline: no field is invented. *)
Theorem calculate_ai_impact_metrics_fields self (h : heap) bl b :
  h !! bl = Some b →
  (has_keys b metric_fields = false →
     ∃ k h', calculate_ai_impact_metrics self bl h = (Raise (KeyError k), h')
             ∧ h' !! bl = Some b
             ∧ ((k ∈ metric_fields ∧ b !! k = None)
                ∨ (k ∈ factor_names ∧ ai_improvements self !! k = None)))
  ∧ (∀ l' h', calculate_ai_impact_metrics self bl h = (Ok l', h') →
       has_keys b metric_fields = true
       ∧ ∃ m, h' !! l' = Some m ∧ dom m = dom b).
Proof.
  intros Hb.
  destruct (calculate_ai_impact_metrics_run self h bl b Hb) as (m & Hm & Hok).
  assert (Hkeys : ∀ m', improved_items self b = Ok m' → has_keys b metric_fields = true).
  { intros m' E. apply improved_items_Ok_inv in E
      as (x1 & g1 & x2 & g2 & x3 & g3 & x4 & g4 & x5 & g5
          & H1 & _ & H2 & _ & H3 & _ & H4 & _ & H5 & _ & _).
    unfold has_keys, metric_fields; cbn. by rewrite H1, H2, H3, H4, H5. }
  split.
  - intros Hmiss. destruct (improved_items self b) as [m'|e] eqn:E.
    + rewrite (Hkeys m' eq_refl) in Hmiss. discriminate.
    + apply improved_items_Raise_inv in E as (k & -> & Hk).
      exists k, (<[fresh (dom h) := m]> h). split; [done|]. split; [|done].
      rewrite lookup_insert_ne; [done|]. by eapply fresh_loc_ne.
  - intros l' h' Hrun. rewrite Hrun in Hm.
    destruct (improved_items self b) as [m'|e] eqn:E; [|discriminate].
    injection Hm as -> ->. split; [by eapply Hkeys|].
    exists m. split; [apply lookup_insert_eq|].
    rewrite (Hok m' eq_refl). by eapply improved_items_dom.
Qed.

Lemma calculate_ai_impact_metrics_fields_witness :
  heap_of baseline_no_cost !! 1%positive = Some baseline_no_cost
  ∧ has_keys baseline_no_cost metric_fields = false
  ∧ ∃ k h', calculate_ai_impact_metrics analyzer0 1%positive (heap_of baseline_no_cost)
            = (Raise (KeyError k), h').
Proof.
  split; [reflexivity|]. split; [vm_compute; reflexivity|].
  destruct (proj1 (calculate_ai_impact_metrics_fields analyzer0
                     (heap_of baseline_no_cost) 1%positive baseline_no_cost eq_refl))
    as (k & h' & Hrun & _); [vm_compute; reflexivity|].
  by exists k, h'.
Defined.

(** C3 as stated fails: with ['cost_per_patient'] absent from the
    baseline the transformer does not succeed on the remaining fields; it
    raises [KeyError] and no improved mapping is returned. *)
Lemma calculate_ai_impact_metrics_absent_field_counterexample :
  baseline_no_cost !! "cost_per_patient" = None
  ∧ "cost_per_patient" ∈ metric_fields
  ∧ (calculate_ai_impact_metrics analyzer0 1%positive (heap_of baseline_no_cost)).1
    = Raise (KeyError "cost_per_patient")
  ∧ ¬ (∃ l' h' m,
         calculate_ai_impact_metrics analyzer0 1%positive (heap_of baseline_no_cost)
           = (Ok l', h')
         ∧ h' !! l' = Some m ∧ m !! "cost_per_patient" = None).
Proof.
  assert (E : (calculate_ai_impact_metrics analyzer0 1%positive
                 (heap_of baseline_no_cost)).1 = Raise (KeyError "cost_per_patient"))
    by (vm_compute; reflexivity).
  split; [vm_compute; reflexivity|]. split; [unfold metric_fields; set_solver|].
  split; [exact E|].
  intros (l' & h' & m & Hrun & _). rewrite Hrun in E. discriminate.
Qed.

(** C4, as amended.  For a baseline with all five metrics and a
    non-negative error rate, and an [error_reduction] factor in [0, 1), the
    transformer returns an improved error rate [e * (1 - r)] that is at most
    the baseline's; the two are equal whenever the factor is zero or the
    baseline error rate is itself zero, so equality does not tell that the
    factor is zero. *)
Theorem calculate_ai_impact_metrics_error_rate self (h : heap) bl b e r :
  h !! bl = Some b →
  has_keys b metric_fields = true →
  has_keys (ai_improvements self) factor_names = true →
  b !! "billing_error_rate" = Some e → 0 <= e →
  ai_improvements self !! "error_reduction" = Some r → 0 <= r → r < 1 →
  ∃ l' h' m e',
    calculate_ai_impact_metrics self bl h = (Ok l', h')
    ∧ h' !! l' = Some m
    ∧ m !! "billing_error_rate" = Some e'
    ∧ e' = e * (1 - r)
    ∧ e' <= e
    ∧ (r == 0 ∨ e == 0 → e' == e).
Proof.
  intros Hb Hkeys Hfac He He0 Hr Hr0 Hr1.
  destruct (calculate_ai_impact_metrics_run self h bl b Hb) as (m & Hm & Hok).
  destruct (improved_items_total self b) as [m' E];
    [by apply has_keys_spec | by apply has_keys_spec |].
  rewrite E in Hm. rewrite <- (Hok m' E) in E. clear Hok m'.
  exists (fresh (dom h)), (<[fresh (dom h) := m]> h), m, (e * (1 - r)).
  split; [done|]. split; [apply lookup_insert_eq|].
  apply improved_items_Ok_inv in E
    as (x1 & g1 & x2 & g2 & x3 & g3 & x4 & g4 & x5 & g5
        & _ & _ & _ & _ & H3 & G3 & _ & _ & _ & _ & ->).
  rewrite He in H3. rewrite Hr in G3. injection H3 as <-. injection G3 as <-.
  split; [by rewrite !lookup_insert_ne, lookup_insert_eq by done|].
  split; [done|]. split.
  - nra.
  - intros [Hz | Hz]; rewrite Hz; ring.
Qed.

Lemma calculate_ai_impact_metrics_error_rate_witness :
  ∃ l' h' m e',
    calculate_ai_impact_metrics analyzer0 1%positive (heap_of baseline_test) = (Ok l', h')
    ∧ h' !! l' = Some m
    ∧ m !! "billing_error_rate" = Some e'
    ∧ e' = 0.025 * (1 - 0.76)
    ∧ e' <= 0.025
    ∧ (0.76 == 0 ∨ 0.025 == 0 → e' == 0.025).
Proof.
  apply (calculate_ai_impact_metrics_error_rate analyzer0 (heap_of baseline_test)
           1%positive baseline_test 0.025 0.76);
    solve [reflexivity | vm_compute; reflexivity | vm_compute; discriminate].
Defined.

(** C4 as stated fails: a valid baseline whose error rate is 0 has an
    improved error rate equal to it although [error_reduction] is 0.76. *)
Lemma calculate_ai_impact_metrics_error_rate_counterexample :
  ∃ l' h' m e',
    baseline_no_errors !! "billing_error_rate" = Some 0
    ∧ ai_improvements analyzer0 !! "error_reduction" = Some 0.76
    ∧ 0 <= 0.76 ∧ 0.76 < 1
    ∧ calculate_ai_impact_metrics analyzer0 1%positive (heap_of baseline_no_errors)
      = (Ok l', h')
    ∧ h' !! l' = Some m
    ∧ m !! "billing_error_rate" = Some e'
    ∧ e' == 0
    ∧ ¬ 0.76 == 0.
Proof.
  exists 2%positive,
    (calculate_ai_impact_metrics analyzer0 1%positive (heap_of baseline_no_errors)).2,
    (<["cost_per_patient" := 250000 * (1 - 0.071)]>
     (<["patients_per_worker" := 20 * (1 + 0.24)]>
     (<["billing_error_rate" := 0 * (1 - 0.76)]>
     (<["processing_time_hours" := 4.0 * (1 - 0.75)]>
     (<["admin_hours_per_patient" := 2.0 * (1 - 0.52)]> baseline_no_errors))))),
    (0 * (1 - 0.76)).
  repeat split; try (vm_compute; reflexivity); try (vm_compute; discriminate).
Qed.

(** ** Running [calculate_roi_analysis] *)

Lemma Qgt_bool_true (a b : Q) : Qgt_bool a b = true ↔ b < a.
Proof.
  unfold Qgt_bool. rewrite negb_true_iff. split.
  - intros H. apply Qnot_le_lt. intros Hle. apply Qle_bool_iff in Hle. congruence.
  - intros H. destruct (Qle_bool a b) eqn:E; [|done].
    apply Qle_bool_iff in E. exfalso. by apply (Qlt_not_le b a).
Qed.

Lemma Qgt_bool_false (a b : Q) : Qgt_bool a b = false ↔ a <= b.
Proof.
  unfold Qgt_bool. rewrite negb_false_iff. apply Qle_bool_iff.
Qed.

(** The guard [upfront_cost > 0] keeps the division from raising. *)
Lemma roi_of_value (c u : Q) : roi_of c u = Ok (roi_value c u).
Proof.
  unfold roi_of, roi_value, py_div.
  destruct (Qgt_bool u 0) eqn:E; [|done].
  apply Qgt_bool_true in E.
  destruct (Qeq_bool u 0) eqn:E0; [|done].
  apply Qeq_bool_iff in E0. rewrite E0 in E. by apply Qlt_irrefl in E.
Qed.

Lemma py_range_snoc (n : nat) :
  py_range 1 (Z.of_nat (S n) + 1) = py_range 1 (Z.of_nat n + 1) ++ [Z.of_nat (S n)].
Proof.
  unfold py_range.
  replace (Z.to_nat (Z.of_nat (S n) + 1 - 1)) with (S n) by lia.
  replace (Z.to_nat (Z.of_nat n + 1 - 1)) with n by lia.
  rewrite seq_S, map_app. cbn [map Nat.add]. do 3 f_equal. lia.
Qed.

Lemma py_range_to_nat (years : Z) :
  py_range 1 (years + 1) = py_range 1 (Z.of_nat (Z.to_nat years) + 1).
Proof. unfold py_range. do 2 f_equal. lia. Qed.

Lemma py_range_nil (years : Z) : (years < 1)%Z → py_range 1 (years + 1) = [].
Proof. intros H. unfold py_range. by replace (Z.to_nat (years + 1 - 1)) with 0%nat by lia. Qed.

Lemma py_range_length (years : Z) : length (py_range 1 (years + 1)) = Z.to_nat years.
Proof. unfold py_range. rewrite length_map, length_seq. lia. Qed.

Lemma py_range_lookup (years y : Z) :
  (1 ≤ y ≤ years)%Z → py_range 1 (years + 1) !! Z.to_nat (y - 1) = Some y.
Proof.
  intros H. unfold py_range. rewrite list_lookup_fmap.
  rewrite lookup_seq_lt by lia. cbn. f_equal. lia.
Qed.

Lemma elem_of_py_range (years y : Z) :
  y ∈ py_range 1 (years + 1) ↔ (1 ≤ y ≤ years)%Z.
Proof.
  unfold py_range. rewrite list_elem_of_fmap. split.
  - intros (i & -> & Hi). apply elem_of_seq in Hi. lia.
  - intros H. exists (Z.to_nat (y - 1)). split; [lia|]. apply elem_of_seq. lia.
Qed.

Lemma running_net_snoc a m (n : nat) :
  running_net a m (Z.of_nat (S n))
  = running_net a m (Z.of_nat n) + yearly_net a m (Z.of_nat (S n)).
Proof.
  unfold running_net. by rewrite py_range_snoc, map_app, fold_left_app.
Qed.

Lemma for_each_app {A S : Type} (body : S → A → outcome S) xs ys s :
  for_each body (xs ++ ys) s = for_each body xs s ≫= for_each body ys.
Proof.
  revert s. induction xs as [|x xs IH]; intros s; cbn; [done|].
  destruct (body s x) as [s'|e]; cbn; [apply IH | done].
Qed.

(** The loop over years [1..n]: it never raises, and it leaves the running
    net sum and one record per year, in ascending order. *)
Lemma roi_loop_run a u m (n : nat) :
  ∃ cc,
    for_each (roi_year a u m) (py_range 1 (Z.of_nat n + 1))
      {| cumulative_savings := 0; cumulative_costs := u; analysis_so_far := [] |}
    = Ok {| cumulative_savings := running_net a m (Z.of_nat n);
            cumulative_costs := cc;
            analysis_so_far := map (year_entry a u m) (py_range 1 (Z.of_nat n + 1)) |}.
Proof.
  induction n as [|n [cc IH]].
  - by exists u.
  - rewrite py_range_snoc, for_each_app, IH. cbn [mbind outcome_mbind outcome_bind].
    cbn [for_each]. unfold roi_year at 1.
    cbn [cumulative_savings cumulative_costs analysis_so_far].
    rewrite roi_of_value. cbn [mbind outcome_mbind outcome_bind].
    eexists. rewrite map_app. cbn [map]. unfold year_entry at 3.
    rewrite running_net_snoc. reflexivity.
Qed.

Lemma running_net_to_nat a m (years : Z) :
  running_net a m years = running_net a m (Z.of_nat (Z.to_nat years)).
Proof. unfold running_net. by rewrite py_range_to_nat. Qed.

(** The whole call, once the costs and the annual savings are read. *)
Lemma calculate_roi_analysis_run self sv years u m a :
  implementation_costs self = Ok (u, m) →
  sv !! "total_annual_savings" = Some a →
  calculate_roi_analysis self sv years =
    Ok {| yearly_analysis := map (year_entry a u m) (py_range 1 (years + 1));
          total_roi_percentage := roi_value (running_net a m years) u;
          payback_period_years :=
            payback_loop (map (year_entry a u m) (py_range 1 (years + 1))) None;
          total_investment := u + m * inject_Z years;
          total_savings := running_net a m years + u;
          roi_net_benefit := running_net a m years |}.
Proof.
  intros Hc Ha. unfold calculate_roi_analysis.
  rewrite Hc. cbn [mbind outcome_mbind outcome_bind].
  apply getitem_Ok in Ha. rewrite Ha. cbn [mbind outcome_mbind outcome_bind].
  rewrite (py_range_to_nat years), (running_net_to_nat a m years).
  destruct (roi_loop_run a u m (Z.to_nat years)) as [cc ->].
  cbn [mbind outcome_mbind outcome_bind cumulative_savings analysis_so_far].
  rewrite roi_of_value. reflexivity.
Qed.

(** ** The payback loop *)

(** On records built from their year, the loop is a search for the first
    year whose cumulative net is non-negative. *)
Lemma payback_loop_find (f : Z → YearRecord) (ys : list Z) :
  (∀ y, year (f y) = y) →
  payback_loop (map f ys) None = find (λ y, Qle_bool 0 (cumulative_net (f y))) ys.
Proof.
  intros Hf. induction ys as [|y ys IH]; cbn; [done|].
  rewrite andb_true_r. destruct (Qle_bool 0 (cumulative_net (f y))); [by rewrite Hf | done].
Qed.

Lemma find_snoc {A : Type} (P : A → bool) (xs : list A) (x : A) :
  find P (xs ++ [x]) =
    match find P xs with
    | Some y => Some y
    | None => if P x then Some x else None
    end.
Proof.
  induction xs as [|x' xs IH]; cbn; [done|]. by destruct (P x').
Qed.

Section FirstYear.

Variable P : Z → bool.

Lemma find_years_None (n : nat) :
  find P (py_range 1 (Z.of_nat n + 1)) = None
  ↔ ∀ y, (1 ≤ y ≤ Z.of_nat n)%Z → P y = false.
Proof.
  induction n as [|n IH].
  - split; [intros _ y Hy; lia | done].
  - rewrite py_range_snoc, find_snoc.
    destruct (find P (py_range 1 (Z.of_nat n + 1))) as [y0|] eqn:E.
    + split; [done|]. intros H.
      assert (Hn : ¬ ∀ y, (1 ≤ y ≤ Z.of_nat n)%Z → P y = false)
        by (intros Hall; apply IH in Hall; discriminate).
      exfalso. apply Hn. intros y Hy. apply H. lia.
    + destruct (P (Z.of_nat (S n))) eqn:EP.
      * split; [done|]. intros H. rewrite H in EP by lia. done.
      * split; [|done]. intros _ y Hy.
        destruct (decide (y = Z.of_nat (S n))) as [->|Hne]; [done|].
        apply IH; [done | lia].
Qed.

Lemma find_years_Some (n : nat) (y : Z) :
  find P (py_range 1 (Z.of_nat n + 1)) = Some y
  ↔ (1 ≤ y ≤ Z.of_nat n)%Z ∧ P y = true
    ∧ ∀ y', (1 ≤ y' < y)%Z → P y' = false.
Proof.
  revert y. induction n as [|n IH]; intros y.
  - split; [done | intros [? _]; lia].
  - rewrite py_range_snoc, find_snoc.
    destruct (find P (py_range 1 (Z.of_nat n + 1))) as [y0|] eqn:E.
    + split.
      * intros [= <-]. destruct (proj1 (IH y0) eq_refl) as (? & ? & ?).
        split; [lia | done].
      * intros (Hy & HP & Hmin).
        destruct (proj1 (IH y0) eq_refl) as (Hy0 & HP0 & Hmin0). f_equal.
        destruct (Z.lt_trichotomy y0 y) as [Hlt | [-> | Hgt]]; [|done|].
        -- rewrite Hmin in HP0 by lia. done.
        -- rewrite Hmin0 in HP by lia. done.
    + pose proof (proj1 (find_years_None n) E) as Hnone.
      destruct (P (Z.of_nat (S n))) eqn:EP.
      * split.
        -- intros [= <-]. split; [lia|]. split; [done|].
           intros y' Hy'. apply Hnone. lia.
        -- intros (Hy & HP & Hmin). f_equal.
           destruct (decide (y = Z.of_nat (S n))) as [->|Hne]; [done|].
           rewrite Hnone in HP by lia. done.
      * split; [done|]. intros (Hy & HP & _).
        destruct (decide (y = Z.of_nat (S n))) as [->|Hne]; [congruence|].
        rewrite Hnone in HP by lia. done.
Qed.

Lemma find_horizon_Some (years y : Z) :
  find P (py_range 1 (years + 1)) = Some y
  ↔ (1 ≤ y ≤ years)%Z ∧ P y = true ∧ ∀ y', (1 ≤ y' < y)%Z → P y' = false.
Proof.
  rewrite py_range_to_nat, find_years_Some. split; intros (? & ? & ?); (split; [lia | done]).
Qed.

Lemma find_horizon_None (years : Z) :
  find P (py_range 1 (years + 1)) = None
  ↔ ∀ y, (1 ≤ y ≤ years)%Z → P y = false.
Proof.
  rewrite py_range_to_nat, find_years_None.
  split; intros H y Hy; apply H; lia.
Qed.

End FirstYear.

Lemma Qle_bool_false (a b : Q) : Qle_bool a b = false ↔ b < a.
Proof.
  rewrite <- Qgt_bool_true. unfold Qgt_bool. apply symmetry, negb_true_iff.
Qed.

Lemma year_entry_year a u m y : year (year_entry a u m y) = y.
Proof. done. Qed.

Lemma elem_of_yearly a u m years rec :
  rec ∈ map (year_entry a u m) (py_range 1 (years + 1))
  ↔ ∃ y, (1 ≤ y ≤ years)%Z ∧ rec = year_entry a u m y.
Proof.
  change (map (year_entry a u m)) with (fmap (M := list) (year_entry a u m)).
  rewrite list_elem_of_fmap. split.
  - intros (y & -> & Hy). apply elem_of_py_range in Hy. eauto.
  - intros (y & Hy & ->). exists y. split; [done|]. by apply elem_of_py_range.
Qed.

(** ** Properties of [calculate_roi_analysis] *)

(** C2, as amended.  A horizon [years < 1] is not rejected: the projector
    raises nothing and returns a projection with no yearly record, no
    payback year, a zero net benefit and ROI, and
    [total_investment = upfront_cost + annual_maintenance * years]. *)
Theorem calculate_roi_analysis_short_horizon self sv years u m a :
  (years < 1)%Z →
  implementation_costs self = Ok (u, m) →
  sv !! "total_annual_savings" = Some a →
  ∃ r, calculate_roi_analysis self sv years = Ok r
       ∧ yearly_analysis r = []
       ∧ payback_period_years r = None
       ∧ roi_net_benefit r = 0
       ∧ total_roi_percentage r == 0
       ∧ total_investment r = u + m * inject_Z years.
Proof.
  intros Hy Hc Ha. eexists. split; [by apply calculate_roi_analysis_run|]. cbn.
  unfold running_net. rewrite (py_range_nil years Hy). cbn.
  repeat (split; [done|]). split; [|done].
  unfold roi_value. destruct (Qgt_bool u 0) eqn:E; [|done].
  apply Qgt_bool_true in E. field. intros Hu. rewrite Hu in E. by apply Qlt_irrefl in E.
Qed.

Lemma calculate_roi_analysis_short_horizon_witness :
  ∃ r, calculate_roi_analysis analyzer0 savings_test 0 = Ok r
       ∧ yearly_analysis r = []
       ∧ payback_period_years r = None
       ∧ roi_net_benefit r = 0
       ∧ total_roi_percentage r == 0
       ∧ total_investment r = 3e12 + 0.6e12 * inject_Z 0.
Proof.
  apply (calculate_roi_analysis_short_horizon analyzer0 savings_test 0 3e12 0.6e12 1e12);
    [lia | reflexivity | reflexivity].
Defined.

(** C2 as stated fails: for the horizon [years = 0] (and for [-3]) the
    projector returns a result instead of raising a configuration error. *)
Lemma calculate_roi_analysis_horizon_counterexample :
  (0 < 1)%Z ∧ (-3 < 1)%Z
  ∧ is_Ok (calculate_roi_analysis analyzer0 savings_test 0) = true
  ∧ is_Ok (calculate_roi_analysis analyzer0 savings_test (-3)) = true
  ∧ calculate_roi_analysis analyzer0 savings_test 0
    ≠ Raise (Exception "ConfigurationError").
Proof.
  repeat split; try lia; try (vm_compute; reflexivity).
  vm_compute. discriminate.
Qed.

(** C7.  For a horizon [years >= 1] the projector returns one record per
    year; the record of year [y] has [savings = annual_savings * 1.05^(y-1)],
    [costs = annual_maintenance], a net benefit that is their difference and
    a [cumulative_net] that is the running sum of the net benefits of years
    [1..y] started at 0, in which the upfront cost does not occur; and
    [total_investment = upfront_cost + annual_maintenance * years]. *)
Theorem calculate_roi_analysis_yearly self sv years u m a :
  (1 ≤ years)%Z →
  implementation_costs self = Ok (u, m) →
  sv !! "total_annual_savings" = Some a →
  ∃ r, calculate_roi_analysis self sv years = Ok r
       ∧ length (yearly_analysis r) = Z.to_nat years
       ∧ total_investment r = u + m * inject_Z years
       ∧ ∀ y, (1 ≤ y ≤ years)%Z →
           ∃ rec, yearly_analysis r !! Z.to_nat (y - 1) = Some rec
                  ∧ year rec = y
                  ∧ savings rec = a * 1.05 ^ (y - 1)
                  ∧ costs rec = m
                  ∧ net_benefit rec = savings rec - costs rec
                  ∧ cumulative_net rec
                    = fold_left Qplus
                        (map (λ j, a * 1.05 ^ (j - 1) - m) (py_range 1 (y + 1))) 0
                  ∧ (∀ rec', yearly_analysis r !! Z.to_nat (y - 2) = Some rec' →
                       (2 ≤ y)%Z →
                       cumulative_net rec = cumulative_net rec' + net_benefit rec).
Proof.
  intros Hy Hc Ha. eexists. split; [by apply calculate_roi_analysis_run|]. cbn.
  split; [by rewrite length_map, py_range_length|]. split; [done|].
  intros y Hrange. exists (year_entry a u m y).
  change (map (year_entry a u m)) with (fmap (M := list) (year_entry a u m)).
  split; [by rewrite list_lookup_fmap, py_range_lookup|].
  repeat (split; [done|]).
  intros rec' Hrec' Hy2.
  replace (y - 2)%Z with (y - 1 - 1)%Z in Hrec' by lia.
  rewrite list_lookup_fmap, (py_range_lookup years (y - 1)) in Hrec' by lia.
  injection Hrec' as <-. cbn.
  replace y with (Z.of_nat (S (Z.to_nat (y - 1)))) at 1 by lia.
  rewrite running_net_snoc.
  by replace (Z.of_nat (Z.to_nat (y - 1))) with (y - 1)%Z by lia;
     replace (Z.of_nat (S (Z.to_nat (y - 1)))) with y by lia.
Qed.

Lemma calculate_roi_analysis_yearly_witness :
  ∃ r, calculate_roi_analysis analyzer0 savings_test 5 = Ok r
       ∧ length (yearly_analysis r) = 5%nat
       ∧ total_investment r = 3e12 + 0.6e12 * inject_Z 5
       ∧ ∃ rec, yearly_analysis r !! 2%nat = Some rec
                ∧ year rec = 3%Z
                ∧ savings rec = 1e12 * 1.05 ^ 2
                ∧ costs rec = 0.6e12.
Proof.
  destruct (calculate_roi_analysis_yearly analyzer0 savings_test 5 3e12 0.6e12 1e12)
    as (r & Hr & Hlen & Hinv & Hrec); [lia | reflexivity | reflexivity |].
  exists r. split; [done|]. split; [done|]. split; [done|].
  destruct (Hrec 3%Z) as (rec & H1 & H2 & H3 & H4 & _); [lia|].
  exists rec. by repeat split.
Defined.

(** C6.  The projector returns its records in ascending year order
    [1..years].  The payback period is the year of a record with
    [cumulative_net >= 0] such that no record with [cumulative_net >= 0]
    has a smaller year; it is [None] exactly when every record has a
    negative [cumulative_net]; and a longer horizon, which only adds later
    years, does not change a payback year once found. *)
Theorem calculate_roi_analysis_payback self sv years u m a :
  implementation_costs self = Ok (u, m) →
  sv !! "total_annual_savings" = Some a →
  ∃ r, calculate_roi_analysis self sv years = Ok r
       ∧ map year (yearly_analysis r) = py_range 1 (years + 1)
       ∧ (∀ y, payback_period_years r = Some y ↔
            ∃ rec, rec ∈ yearly_analysis r ∧ year rec = y
                   ∧ 0 <= cumulative_net rec
                   ∧ ∀ rec', rec' ∈ yearly_analysis r →
                             0 <= cumulative_net rec' → (y ≤ year rec')%Z)
       ∧ (payback_period_years r = None ↔
            ∀ rec, rec ∈ yearly_analysis r → cumulative_net rec < 0)
       ∧ (∀ years' r' y,
            (years ≤ years')%Z →
            calculate_roi_analysis self sv years' = Ok r' →
            payback_period_years r = Some y →
            payback_period_years r' = Some y).
Proof.
  intros Hc Ha. eexists. split; [by apply calculate_roi_analysis_run|]. cbn.
  rewrite payback_loop_find by apply year_entry_year.
  split; [|split; [|split]].
  - rewrite map_map. cbn. apply map_id.
  - intros y. rewrite find_horizon_Some. split.
    + intros (Hy & HP & Hmin). exists (year_entry a u m y).
      split; [apply elem_of_yearly; eauto|]. split; [done|].
      split; [by apply Qle_bool_iff|].
      intros rec' Hin Hnonneg. apply elem_of_yearly in Hin as (y' & Hy' & ->). cbn.
      destruct (Z.le_gt_cases y y') as [|Hlt]; [done|].
      apply Qle_bool_iff in Hnonneg. rewrite Hmin in Hnonneg by lia. done.
    + intros (rec & Hin & <- & Hnonneg & Hmin).
      apply elem_of_yearly in Hin as (y & Hy & ->). cbn in *.
      split; [done|]. split; [by apply Qle_bool_iff|].
      intros y' Hy'. apply Qle_bool_false.
      apply Qnot_le_lt. intros Hle.
      assert (y ≤ y')%Z; [|lia].
      apply (Hmin (year_entry a u m y')); [apply elem_of_yearly; exists y'; split; [lia|done] | done].
  - rewrite find_horizon_None. split.
    + intros H rec Hin. apply elem_of_yearly in Hin as (y & Hy & ->).
      by apply Qle_bool_false, H.
    + intros H y Hy. apply Qle_bool_false.
      apply (H (year_entry a u m y)), elem_of_yearly. eauto.
  - intros years' r' y Hle Hr'.
    rewrite (calculate_roi_analysis_run self sv years' u m a Hc Ha) in Hr'.
    injection Hr' as <-. cbn.
    rewrite payback_loop_find by apply year_entry_year.
    rewrite !find_horizon_Some. intros (Hy & HP & Hmin). split; [lia | done].
Qed.

Lemma calculate_roi_analysis_payback_witness :
  ∃ r, calculate_roi_analysis analyzer0 savings_test 5 = Ok r
       ∧ map year (yearly_analysis r) = [1; 2; 3; 4; 5]%Z
       ∧ payback_period_years r = Some 1%Z.
Proof.
  destruct (calculate_roi_analysis_payback analyzer0 savings_test 5 3e12 0.6e12 1e12)
    as (r & Hr & Hyears & _); [reflexivity | reflexivity |].
  exists r. split; [done|]. split; [done|].
  rewrite (calculate_roi_analysis_run analyzer0 savings_test 5 3e12 0.6e12 1e12)
    in Hr by reflexivity.
  injection Hr as <-. vm_compute. reflexivity.
Defined.

(** C8.  With an upfront cost of 0 the projector never raises a division
    error, whatever the savings and the horizon; and it returns, as soon as
    the annual savings are present, a projection whose [roi_percentage] is
    0 in every year and whose [total_roi_percentage] is 0. *)
Theorem calculate_roi_analysis_zero_upfront self sv years u m :
  implementation_costs self = Ok (u, m) →
  u == 0 →
  calculate_roi_analysis self sv years ≠ Raise ZeroDivisionError
  ∧ (∀ r, calculate_roi_analysis self sv years = Ok r →
       total_roi_percentage r = 0
       ∧ ∀ rec, rec ∈ yearly_analysis r → roi_percentage rec = 0)
  ∧ (∀ a, sv !! "total_annual_savings" = Some a →
       ∃ r, calculate_roi_analysis self sv years = Ok r).
Proof.
  intros Hc Hu.
  assert (Hguard : Qgt_bool u 0 = false) by (apply Qgt_bool_false; by rewrite Hu).
  destruct (sv !! "total_annual_savings") as [a|] eqn:Ha.
  - rewrite (calculate_roi_analysis_run self sv years u m a Hc Ha).
    split; [done|]. split; [|eauto].
    intros r [= <-]. cbn. unfold roi_value at 1. rewrite Hguard. split; [done|].
    intros rec Hin. apply elem_of_yearly in Hin as (y & _ & ->). cbn.
    unfold roi_value. by rewrite Hguard.
  - assert (E : calculate_roi_analysis self sv years
                = Raise (KeyError "total_annual_savings")).
    { unfold calculate_roi_analysis. rewrite Hc. cbn [mbind outcome_mbind outcome_bind].
      unfold getitem. by rewrite Ha. }
    rewrite E. split; [done|]. split; [done|]. done.
Qed.

Lemma calculate_roi_analysis_zero_upfront_witness :
  implementation_costs analyzer_no_upfront = Ok (0 + 0 + 0, 0 + 0.2e12 + 0.1e12)
  ∧ 0 + 0 + 0 == 0
  ∧ calculate_roi_analysis analyzer_no_upfront savings_test 5 ≠ Raise ZeroDivisionError
  ∧ ∃ r, calculate_roi_analysis analyzer_no_upfront savings_test 5 = Ok r
         ∧ total_roi_percentage r = 0
         ∧ ∀ rec, rec ∈ yearly_analysis r → roi_percentage rec = 0.
Proof.
  assert (Hc : implementation_costs analyzer_no_upfront
               = Ok (0 + 0 + 0, 0 + 0.2e12 + 0.1e12)) by reflexivity.
  assert (Hu : 0 + 0 + 0 == 0) by reflexivity.
  destruct (calculate_roi_analysis_zero_upfront analyzer_no_upfront savings_test 5
              _ _ Hc Hu) as (Hne & Hzero & Htotal).
  destruct (Htotal 1e12) as [r Hr]; [reflexivity|].
  split; [done|]. split; [done|]. split; [done|].
  exists r. split; [done|]. by apply Hzero.
Defined.

(** ** Running [calculate_cost_savings] *)

Lemma py_div_Ok (a b q : Q) : py_div a b = Ok q ↔ ¬ b == 0 ∧ q = a / b.
Proof.
  unfold py_div. destruct (Qeq_bool b 0) eqn:E.
  - apply Qeq_bool_iff in E. split; [done | by intros [? _]].
  - apply Qeq_bool_neq in E. split; [by intros [= <-] | by intros [_ ->]].
Qed.

Lemma py_div_Raise (a b : Q) e : py_div a b = Raise e ↔ b == 0 ∧ e = ZeroDivisionError.
Proof.
  unfold py_div. destruct (Qeq_bool b 0) eqn:E.
  - apply Qeq_bool_iff in E. split; [by intros [= <-] | by intros [_ ->]].
  - apply Qeq_bool_neq in E. split; [done | by intros [? _]].
Qed.

(** What a successful call has read and what it returns. *)
Lemma calculate_cost_savings_Ok_inv self b ai s :
  calculate_cost_savings self b ai = Ok s →
  ∃ wage mult b_hours a_hours b_err a_err b_cost b_ppw a_ppw b_time a_time,
    japan_constants self !! "average_hourly_wage" = Some wage
    ∧ japan_constants self !! "error_cost_multiplier" = Some mult
    ∧ b !! "admin_hours_per_patient" = Some b_hours
    ∧ ai !! "admin_hours_per_patient" = Some a_hours
    ∧ b !! "billing_error_rate" = Some b_err
    ∧ ai !! "billing_error_rate" = Some a_err
    ∧ b !! "cost_per_patient" = Some b_cost
    ∧ b !! "patients_per_worker" = Some b_ppw
    ∧ ai !! "patients_per_worker" = Some a_ppw
    ∧ b !! "processing_time_hours" = Some b_time
    ∧ ai !! "processing_time_hours" = Some a_time
    ∧ ¬ b_ppw == 0
    ∧ let s1 := (b_hours - a_hours) * 47000000 * wage in
      let s2 := (b_err - a_err) * (b_cost * b_err * mult) * 47000000 in
      let s3 := 47000000 * (a_ppw / b_ppw - 1) * (b_cost * 0.7) in
      let s4 := (b_time - a_time) * 47000000 * 0.1 * wage in
      s = <["total_annual_savings" := py_sum [s1; s2; s3; s4]]>
          (<["processing_efficiency_savings" := s4]>
          (<["additional_revenue" := s3]>
          (<["error_cost_savings" := s2]>
          (<["admin_labor_savings" := s1]> ∅)))).
Proof.
  unfold calculate_cost_savings. cbv zeta. intros H.
  apply bind_Ok_inv in H as (wage & Hwage & H).
  apply bind_Ok_inv in H as (b_hours & Hbh & H).
  apply bind_Ok_inv in H as (a_hours & Hah & H).
  apply bind_Ok_inv in H as (b_err & Hbe & H).
  apply bind_Ok_inv in H as (a_err & Hae & H).
  apply bind_Ok_inv in H as (b_cost & Hbc & H).
  apply bind_Ok_inv in H as (b_err' & Hbe' & H).
  apply bind_Ok_inv in H as (mult & Hmult & H).
  apply bind_Ok_inv in H as (a_ppw & Hap & H).
  apply bind_Ok_inv in H as (b_ppw & Hbp & H).
  apply bind_Ok_inv in H as (ratio & Hratio & H).
  apply bind_Ok_inv in H as (b_cost' & Hbc' & H).
  apply bind_Ok_inv in H as (b_time & Hbt & H).
  apply bind_Ok_inv in H as (a_time & Hat & H).
  apply bind_Ok_inv in H as (s1 & Hs1 & H).
  apply bind_Ok_inv in H as (s2 & Hs2 & H).
  apply bind_Ok_inv in H as (s3 & Hs3 & H).
  apply bind_Ok_inv in H as (s4 & Hs4 & H).
  apply getitem_Ok in Hwage, Hbh, Hah, Hbe, Hae, Hbc, Hbe', Hmult, Hap, Hbp, Hbc', Hbt, Hat.
  apply getitem_Ok in Hs1, Hs2, Hs3, Hs4.
  apply py_div_Ok in Hratio as [Hnz ->].
  rewrite Hbe in Hbe'. injection Hbe' as <-.
  rewrite Hbc in Hbc'. injection Hbc' as <-.
  rewrite !lookup_insert_ne, lookup_insert_eq in Hs1 by done.
  rewrite !lookup_insert_ne, lookup_insert_eq in Hs2 by done.
  rewrite !lookup_insert_ne, lookup_insert_eq in Hs3 by done.
  rewrite lookup_insert_eq in Hs4.
  injection Hs1 as <-. injection Hs2 as <-. injection Hs3 as <-. injection Hs4 as <-.
  injection H as <-.
  by exists wage, mult, b_hours, a_hours, b_err, a_err, b_cost, b_ppw, a_ppw, b_time, a_time.
Qed.

(** The only errors are a [KeyError] for a metric or constant that is
    not there and the [ZeroDivisionError] of the throughput ratio. *)
Lemma calculate_cost_savings_Raise_inv self b ai e :
  calculate_cost_savings self b ai = Raise e →
  (∃ k, e = KeyError k
        ∧ ((k ∈ metric_fields ∧ (b !! k = None ∨ ai !! k = None))
           ∨ (k ∈ cost_constants ∧ japan_constants self !! k = None)))
  ∨ (e = ZeroDivisionError
     ∧ ∃ b_ppw, b !! "patients_per_worker" = Some b_ppw ∧ b_ppw == 0).
Proof.
  unfold calculate_cost_savings, metric_fields, cost_constants. cbv zeta. intros H.
  repeat
    (apply bind_Raise_inv in H as [H | (? & ? & H)];
     [first
        [ apply getitem_Raise in H as [Hnone ->];
          first
            [ left; eexists; split; [reflexivity|];
              first [ left; split; [set_solver | by left]
                    | left; split; [set_solver | by right]
                    | right; split; [set_solver | done] ]
            | exfalso; by simplify_map_eq ]
        | apply py_div_Raise in H as [? ->]; right; split; [done|];
          eexists; split; [by apply getitem_Ok | done] ] |]).
  discriminate.
Qed.

(** ** numpy arithmetic and the throughput ratio *)

Lemma np_add_not_finite_l x y : np_is_finite x = false → np_is_finite (np_add x y) = false.
Proof. destruct x as [a|s|], y as [b|t|]; cbn; try done. by destruct (Bool.eqb s t). Qed.

Lemma np_add_not_finite_r x y : np_is_finite y = false → np_is_finite (np_add x y) = false.
Proof. destruct x as [a|s|], y as [b|t|]; cbn; try done. by destruct (Bool.eqb s t). Qed.

Lemma np_sub_not_finite_l x y : np_is_finite x = false → np_is_finite (np_sub x y) = false.
Proof. destruct x as [a|s|], y as [b|t|]; cbn; try done. by destruct (Bool.eqb s (negb t)). Qed.

Lemma np_mul_not_finite_l x y : np_is_finite x = false → np_is_finite (np_mul x y) = false.
Proof.
  destruct x as [a|s|], y as [b|t|]; cbn; try done.
  unfold np_scale_inf. by destruct (b ?= 0).
Qed.

Lemma np_mul_not_finite_r x y : np_is_finite y = false → np_is_finite (np_mul x y) = false.
Proof.
  destruct x as [a|s|], y as [b|t|]; cbn; try done.
  unfold np_scale_inf. by destruct (a ?= 0).
Qed.

(** numpy's quotient by zero is an infinity or nan, never an exception. *)
Lemma np_div_zero x z : z == 0 → np_is_finite (np_div x (NpFinite z)) = false.
Proof.
  intros Hz. destruct x as [a|s|]; cbn; [| |done].
  - rewrite (proj2 (Qeq_bool_iff z 0) Hz). by destruct (a ?= 0).
  - by destruct (z ?= 0).
Qed.

(** With Python numbers and a zero baseline throughput the call fails at
    the first missing item it reads or, all of them there, at the ratio. *)
Lemma calculate_cost_savings_before_ratio self b ai z :
  b !! "patients_per_worker" = Some z →
  z == 0 →
  calculate_cost_savings self b ai =
    match first_missing self b ai reads_before_ratio with
    | Some k => Raise (KeyError k)
    | None => Raise ZeroDivisionError
    end.
Proof.
  intros Hz Hz0.
  unfold calculate_cost_savings, first_missing, reads_before_ratio, is_missing, getitem,
    py_div.
  cbv zeta. cbn [find fst snd]. rewrite Hz.
  repeat
    match goal with
    | |- context [match ?d !! ?k with _ => _ end] =>
        destruct (d !! k); cbn [mbind outcome_mbind outcome_bind fmap option_fmap option_map];
        [|done]
    end.
  by rewrite (proj2 (Qeq_bool_iff z 0) Hz0).
Qed.

(** With numpy scalars the ratio is an infinity or nan and the call goes
    on: it fails only for a missing item. *)
Lemma calculate_cost_savings_numpy_zero self bn an z :
  bn !! "patients_per_worker" = Some (NpFinite z) →
  z == 0 →
  match first_missing self bn an (reads_before_ratio ++ reads_after_ratio) with
  | Some k => calculate_cost_savings_numpy self bn an = Raise (KeyError k)
  | None =>
      ∃ s revenue total,
        calculate_cost_savings_numpy self bn an = Ok s
        ∧ s !! "additional_revenue" = Some revenue
        ∧ np_is_finite revenue = false
        ∧ s !! "total_annual_savings" = Some total
        ∧ np_is_finite total = false
  end.
Proof.
  intros Hz Hz0.
  unfold calculate_cost_savings_numpy, first_missing, reads_before_ratio,
    reads_after_ratio, is_missing, getitem.
  cbv zeta. cbn [app find fst snd]. rewrite Hz.
  repeat
    match goal with
    | |- context [match ?d !! ?k with _ => _ end] =>
        lazymatch d with
        | insert _ _ _ => fail
        | _ => destruct (d !! k);
               cbn [mbind outcome_mbind outcome_bind fmap option_fmap option_map];
               [|done]
        end
    end.
  rewrite !lookup_insert_eq.
  repeat (rewrite lookup_insert_ne by done; rewrite ?lookup_insert_eq).
  cbn [mbind outcome_mbind outcome_bind].
  eexists _, _, _. split; [reflexivity|].
  split; [by rewrite lookup_insert_ne, lookup_insert_ne, lookup_insert_eq by done|].
  assert (Hrev : ∀ a c, np_is_finite
            (np_mul (np_mul (NpFinite 47000000) (np_sub (np_div a (NpFinite z)) (NpFinite 1)))
               c) = false).
  { intros a c. apply np_mul_not_finite_l, np_mul_not_finite_r, np_sub_not_finite_l.
    by apply np_div_zero. }
  split; [apply Hrev|]. split; [by rewrite lookup_insert_eq|].
  unfold np_sum. cbn [fold_left].
  apply np_add_not_finite_l, np_add_not_finite_r, Hrev.
Qed.

(** ** Properties of [calculate_cost_savings] *)

(** C9.  Whenever the savings decomposer returns, the four named
    categories are present and ['total_annual_savings'] is their sum as
    [sum] computes it, 0 plus the four in order; hence equal to
    their sum. *)
Theorem calculate_cost_savings_total self b ai s :
  calculate_cost_savings self b ai = Ok s →
  ∃ s1 s2 s3 s4 total,
    s !! "admin_labor_savings" = Some s1
    ∧ s !! "error_cost_savings" = Some s2
    ∧ s !! "additional_revenue" = Some s3
    ∧ s !! "processing_efficiency_savings" = Some s4
    ∧ s !! "total_annual_savings" = Some total
    ∧ total = 0 + s1 + s2 + s3 + s4
    ∧ total == s1 + s2 + s3 + s4.
Proof.
  intros H.
  apply calculate_cost_savings_Ok_inv in H
    as (wage & mult & b_hours & a_hours & b_err & a_err & b_cost & b_ppw & a_ppw
        & b_time & a_time & _ & _ & _ & _ & _ & _ & _ & _ & _ & _ & _ & _ & Hs).
  cbv zeta in Hs. subst s.
  do 5 eexists.
  split; [by rewrite !lookup_insert_ne, lookup_insert_eq by done|].
  split; [by rewrite !lookup_insert_ne, lookup_insert_eq by done|].
  split; [by rewrite !lookup_insert_ne, lookup_insert_eq by done|].
  split; [by rewrite !lookup_insert_ne, lookup_insert_eq by done|].
  split; [by rewrite lookup_insert_eq|].
  split; [done|]. unfold py_sum. cbn [fold_left]. ring.
Qed.

Lemma calculate_cost_savings_total_witness :
  ∃ s s1 s2 s3 s4 total,
    calculate_cost_savings analyzer0 baseline_test improved_test = Ok s
    ∧ s !! "admin_labor_savings" = Some s1
    ∧ s !! "error_cost_savings" = Some s2
    ∧ s !! "additional_revenue" = Some s3
    ∧ s !! "processing_efficiency_savings" = Some s4
    ∧ s !! "total_annual_savings" = Some total
    ∧ total == s1 + s2 + s3 + s4.
Proof.
  destruct (calculate_cost_savings analyzer0 baseline_test improved_test)
    as [s|e] eqn:E; [|vm_compute in E; discriminate E].
  destruct (calculate_cost_savings_total analyzer0 baseline_test improved_test s E)
    as (s1 & s2 & s3 & s4 & total & H1 & H2 & H3 & H4 & Ht & _ & Hsum).
  by exists s, s1, s2, s3, s4, total.
Defined.

(** C1, as amended.  When the baseline's ['patients_per_worker'] is zero
    the savings decomposer never raises a [DataError].  On Python numbers
    it fails: with the [KeyError] of the first item read before the
    throughput ratio that is missing and, when none is, with Python's
    [ZeroDivisionError] at the ratio.  On numpy scalars the ratio is an
    infinity or nan and raises nothing: the decomposer fails only with the
    [KeyError] of the first missing item, and otherwise returns a breakdown
    whose additional revenue and total are not finite. *)
Theorem calculate_cost_savings_zero_throughput self
    (b ai : gmap string Q) (bn an : gmap string np_float) :
  (∀ z, b !! "patients_per_worker" = Some z → z == 0 →
     calculate_cost_savings self b ai =
       match first_missing self b ai reads_before_ratio with
       | Some k => Raise (KeyError k)
       | None => Raise ZeroDivisionError
       end)
  ∧ (∀ z, bn !! "patients_per_worker" = Some (NpFinite z) → z == 0 →
     match first_missing self bn an (reads_before_ratio ++ reads_after_ratio) with
     | Some k => calculate_cost_savings_numpy self bn an = Raise (KeyError k)
     | None =>
         ∃ s revenue total,
           calculate_cost_savings_numpy self bn an = Ok s
           ∧ s !! "additional_revenue" = Some revenue
           ∧ np_is_finite revenue = false
           ∧ s !! "total_annual_savings" = Some total
           ∧ np_is_finite total = false
     end).
Proof.
  split.
  - intros z Hz Hz0. by apply (calculate_cost_savings_before_ratio self b ai z).
  - intros z Hz Hz0. by apply (calculate_cost_savings_numpy_zero self bn an z).
Qed.

Lemma calculate_cost_savings_zero_throughput_witness :
  baseline_idle !! "patients_per_worker" = Some 0
  ∧ baseline_idle_numpy !! "patients_per_worker" = Some (NpFinite 0)
  ∧ 0 == 0
  ∧ calculate_cost_savings analyzer0 baseline_idle improved_test = Raise ZeroDivisionError
  ∧ ∃ s revenue total,
      calculate_cost_savings_numpy analyzer0 baseline_idle_numpy improved_idle_numpy = Ok s
      ∧ s !! "additional_revenue" = Some revenue
      ∧ np_is_finite revenue = false
      ∧ s !! "total_annual_savings" = Some total
      ∧ np_is_finite total = false.
Proof.
  split; [reflexivity|]. split; [reflexivity|]. split; [reflexivity|].
  split.
  - exact (proj1 (calculate_cost_savings_zero_throughput analyzer0 baseline_idle
                    improved_test baseline_idle_numpy improved_idle_numpy)
             0 eq_refl eq_refl).
  - exact (proj2 (calculate_cost_savings_zero_throughput analyzer0 baseline_idle
                    improved_test baseline_idle_numpy improved_idle_numpy)
             0 eq_refl eq_refl).
Defined.

(** C1 as stated fails: with ['patients_per_worker'] zero in the baseline
    the decomposer raises [ZeroDivisionError] on Python numbers and returns
    a breakdown on numpy scalars; in neither case a [DataError]. *)
Lemma calculate_cost_savings_zero_throughput_counterexample :
  baseline_idle !! "patients_per_worker" = Some 0
  ∧ calculate_cost_savings analyzer0 baseline_idle improved_test = Raise ZeroDivisionError
  ∧ calculate_cost_savings analyzer0 baseline_idle improved_test
    ≠ Raise (Exception "DataError")
  ∧ baseline_idle_numpy !! "patients_per_worker" = Some (NpFinite 0)
  ∧ is_Ok (calculate_cost_savings_numpy analyzer0 baseline_idle_numpy improved_idle_numpy)
    = true.
Proof.
  assert (E : calculate_cost_savings analyzer0 baseline_idle improved_test
              = Raise ZeroDivisionError) by (vm_compute; reflexivity).
  split; [reflexivity|]. split; [exact E|]. split; [rewrite E; discriminate|].
  split; [reflexivity|]. vm_compute. reflexivity.
Qed.

(** ** Properties of [calculate_baseline_metrics] *)

Lemma calculate_baseline_metrics_tables loaded self data_arg :
  (calculate_baseline_metrics loaded self data_arg).2
  = baseline_metrics self (tables_used loaded self data_arg).
Proof.
  unfold calculate_baseline_metrics, tables_used, load_data.
  by destruct (Nat.eqb _ 0).
Qed.

Lemma frame_has_lookup df cols c :
  frame_has df cols = true → df_empty df = false → c ∈ cols →
  ∃ s, df_getitem df c = Ok s ∧ df_columns df !! c = Some s.
Proof.
  unfold frame_has, df_getitem. intros H He Hc. rewrite He in H.
  destruct (proj1 (has_keys_spec _ _) H c Hc) as [s Hs].
  exists s. split; [by apply getitem_Ok | done].
Qed.

Lemma df_wf_first_row df c s :
  df_wf df → df_empty df = false → df_columns df !! c = Some s →
  ∃ x rest, s = x :: rest.
Proof.
  intros Hwf He Hs. apply Hwf in Hs. cbn in Hs.
  unfold df_empty in He. apply orb_false_iff in He as [He _].
  apply Nat.eqb_neq in He. destruct s as [|x rest]; [cbn in Hs; lia | eauto].
Qed.

(** The cost section of the function, on the metrics computed so far. *)
Lemma cost_section_Ok_inv self (tables : gmap string DataFrame) (base m : gmap string Q) :
  (if negb (df_empty (get_frame tables "medical_expenditure")) then
     expenditure ← df_getitem (get_frame tables "medical_expenditure") "total_expenditure";
     total_cost ← series_iloc0 expenditure;
     total_patients ←
       (if negb (df_empty (get_frame tables "patient_volume")) then
          patients ← df_getitem (get_frame tables "patient_volume") "total_patients";
          Ok (series_sum patients)
        else Ok 47000000);
     Ok (<["cost_per_patient" := total_cost / total_patients]> base)
   else
     total ← getitem (japan_constants self) "total_healthcare_cost";
     Ok (<["cost_per_patient" := total / 47000000]> base)) = Ok m →
  if df_empty (get_frame tables "medical_expenditure") then
    ∃ total, japan_constants self !! "total_healthcare_cost" = Some total
             ∧ m !! "cost_per_patient" = Some (total / 47000000)
  else
    ∃ total_cost rest,
      df_columns (get_frame tables "medical_expenditure") !! "total_expenditure"
        = Some (total_cost :: rest)
      ∧ if df_empty (get_frame tables "patient_volume") then
          m !! "cost_per_patient" = Some (total_cost / 47000000)
        else
          ∃ patients,
            df_columns (get_frame tables "patient_volume") !! "total_patients"
              = Some patients
            ∧ m !! "cost_per_patient" = Some (total_cost / series_sum patients).
Proof.
  destruct (df_empty (get_frame tables "medical_expenditure")); cbn [negb].
  - intros H. apply bind_Ok_inv in H as (total & Ht & H).
    apply getitem_Ok in Ht. injection H as <-.
    exists total. by rewrite lookup_insert_eq.
  - intros H. apply bind_Ok_inv in H as (col & Hcol & H).
    apply bind_Ok_inv in H as (total_cost & Hfirst & H).
    apply bind_Ok_inv in H as (total_patients & Hpat & H).
    injection H as <-. apply getitem_Ok in Hcol.
    destruct col as [|x rest]; [discriminate|]. injection Hfirst as ->.
    exists total_cost, rest. split; [done|].
    destruct (df_empty (get_frame tables "patient_volume")); cbn [negb] in *.
    + injection Hpat as <-. by rewrite lookup_insert_eq.
    + apply bind_Ok_inv in Hpat as (patients & Hp & Hpat).
      apply getitem_Ok in Hp. injection Hpat as <-.
      exists patients. by rewrite lookup_insert_eq.
Qed.

Lemma baseline_metrics_Ok self tables :
  baseline_inputs_ok self tables = true →
  df_wf (get_frame tables "medical_expenditure") →
  ∃ m, baseline_metrics self tables = Ok m.
Proof.
  unfold baseline_inputs_ok. rewrite !andb_true_iff.
  intros ((((Hadmin & Hwork) & Hpat) & Hexp) & Hconst) Hwf.
  pose proof (proj1 (has_keys_spec _ _) Hconst) as Hc.
  unfold baseline_metrics. cbv zeta.
  destruct (df_empty (get_frame tables "administrative_costs")) eqn:Ea;
  destruct (df_empty (get_frame tables "workforce")) eqn:Ew;
  destruct (df_empty (get_frame tables "patient_volume")) eqn:Ep;
  destruct (df_empty (get_frame tables "medical_expenditure")) eqn:Ee;
  cbn [negb andb];
  repeat
    match goal with
    | |- context [df_getitem (get_frame tables ?t) ?c] =>
        let s := fresh "s" in let E := fresh "E" in let L := fresh "L" in
        destruct (frame_has_lookup (get_frame tables t) _ c ltac:(eassumption)
                    ltac:(eassumption) ltac:(set_solver)) as (s & E & L);
        rewrite E; cbn [mbind outcome_mbind outcome_bind]
    | |- context [getitem (japan_constants self) ?k] =>
        let v := fresh "v" in let E := fresh "E" in
        destruct (Hc k ltac:(set_solver)) as [v E];
        apply getitem_Ok in E; rewrite E; cbn [mbind outcome_mbind outcome_bind]
    | L : df_columns (get_frame tables "medical_expenditure") !! _ = Some ?s
      |- context [series_iloc0 ?s] =>
        let x := fresh "x" in let rest := fresh "rest" in
        destruct (df_wf_first_row _ _ _ Hwf Ee L) as (x & rest & ->);
        cbn [series_iloc0 mbind outcome_mbind outcome_bind]
    end;
  eauto.
Qed.

(** C5, as amended.  When the medical-expenditure table is non-empty,
    [cost_per_patient] is the first row's total expenditure divided by the
    sum of the patient-volume table's patients or, when that table is
    missing or empty, by the constant 47,000,000.  Only when the
    expenditure table itself is missing or empty is it the fallback
    [total_healthcare_cost / 47,000,000].  (The quotient by the patient sum
    is stated for a non-zero sum, where exact arithmetic applies.)  The
    calculator returns whenever the tables it reads have their columns. *)
Theorem calculate_baseline_metrics_cost loaded self data_arg :
  let tables := tables_used loaded self data_arg in
  let expenditure_data := get_frame tables "medical_expenditure" in
  let patient_data := get_frame tables "patient_volume" in
  (∀ m, (calculate_baseline_metrics loaded self data_arg).2 = Ok m →
     if df_empty expenditure_data then
       ∃ total, japan_constants self !! "total_healthcare_cost" = Some total
                ∧ m !! "cost_per_patient" = Some (total / 47000000)
     else
       ∃ total_cost rest,
         df_columns expenditure_data !! "total_expenditure" = Some (total_cost :: rest)
         ∧ if df_empty patient_data then
             m !! "cost_per_patient" = Some (total_cost / 47000000)
           else
             ∃ patients,
               df_columns patient_data !! "total_patients" = Some patients
               ∧ (¬ series_sum patients == 0 →
                  m !! "cost_per_patient" = Some (total_cost / series_sum patients)))
  ∧ (baseline_inputs_ok self tables = true → df_wf expenditure_data →
     ∃ m, (calculate_baseline_metrics loaded self data_arg).2 = Ok m).
Proof.
  cbv zeta. rewrite calculate_baseline_metrics_tables. split.
  - intros m H. unfold baseline_metrics in H. cbv zeta in H.
    apply bind_Ok_inv in H as (base1 & _ & H).
    apply bind_Ok_inv in H as (base2 & _ & H).
    apply (cost_section_Ok_inv self _ base2 m) in H.
    destruct (df_empty (get_frame _ "medical_expenditure")); [done|].
    destruct H as (total_cost & rest & Hcol & H). exists total_cost, rest.
    split; [done|].
    destruct (df_empty (get_frame _ "patient_volume")); [done|].
    destruct H as (patients & Hp & H). eauto.
  - apply baseline_metrics_Ok.
Qed.

Lemma calculate_baseline_metrics_cost_witness :
  baseline_inputs_ok analyzer0 (tables_used ∅ analyzer0 (Some tables_test)) = true
  ∧ ∃ m, (calculate_baseline_metrics ∅ analyzer0 (Some tables_test)).2 = Ok m.
Proof.
  split; [vm_compute; reflexivity|].
  apply (proj2 (calculate_baseline_metrics_cost ∅ analyzer0 (Some tables_test)));
    [vm_compute; reflexivity|].
  unfold df_wf. apply (bool_decide_unpack _). vm_compute. exact I.
Defined.

(** C5 as stated fails: with an expenditure table of 90e12 and no
    patient-volume table the result is 90e12 / 47,000,000, not the fallback
    ratio [total_healthcare_cost / 47,000,000] with its 45e12. *)
Lemma calculate_baseline_metrics_cost_counterexample :
  df_empty (get_frame tables_expenditure_only "medical_expenditure") = false
  ∧ df_empty (get_frame tables_expenditure_only "patient_volume") = true
  ∧ japan_constants analyzer0 !! "total_healthcare_cost" = Some 45e12
  ∧ ∃ m c,
      (calculate_baseline_metrics ∅ analyzer0 (Some tables_expenditure_only)).2 = Ok m
      ∧ m !! "cost_per_patient" = Some c
      ∧ c == 90e12 / 47000000
      ∧ ¬ c == 45e12 / 47000000.
Proof.
  split; [vm_compute; reflexivity|]. split; [vm_compute; reflexivity|].
  split; [vm_compute; reflexivity|].
  exists (<["cost_per_patient" := 90e12 / 47000000]>
          (<["patients_per_worker" := 20]>
          (<["billing_error_rate" := 0.025]>
          (<["processing_time_hours" := 4.0]>
          (<["admin_hours_per_patient" := 2.0]> ∅))))), (90e12 / 47000000).
  split; [vm_compute; reflexivity|]. split; [reflexivity|].
  split; [reflexivity|]. vm_compute. discriminate.
Qed.

(** * Further properties *)

(** Membership in a list written out in full. *)
Ltac in_list := apply list_elem_of_In; cbn; auto 12.

(** ** [calculate_ai_impact_metrics] *)

Lemma improved_items_first_missing self b :
  match improved_items self b, first_missing_read self b with
  | Ok _, None => True
  | Raise e, Some (_, k) => e = KeyError k
  | _, _ => False
  end.
Proof.
  unfold improved_items, improved_item, first_missing_read, impact_reads, getitem.
  cbn [find fst snd].
  repeat
    match goal with
    | |- context [match ?d !! ?k with _ => _ end] =>
        destruct (d !! k); cbn [mbind outcome_mbind outcome_bind]; [|done]
    end.
  done.
Qed.

Lemma first_missing_read_None self b :
  first_missing_read self b = None
  ↔ has_keys b metric_fields = true
    ∧ has_keys (ai_improvements self) factor_names = true.
Proof.
  unfold first_missing_read, impact_reads, has_keys, metric_fields, factor_names.
  cbn [find forallb fst snd].
  repeat
    match goal with
    | |- context [match ?d !! ?k with _ => _ end] =>
        destruct (d !! k); cbn [andb];
        [| split; [done | intros [? ?]; done]]
    end.
  done.
Qed.

(** The transformer returns exactly when the baseline has the five metrics
    and [ai_improvements] the five factors; otherwise it raises the
    [KeyError] of the first item, in the order the code reads them, that is
    missing. *)
Theorem calculate_ai_impact_metrics_outcome self (h : heap) bl b :
  h !! bl = Some b →
  (calculate_ai_impact_metrics self bl h).1 =
    match first_missing_read self b with
    | None => Ok (fresh (dom h))
    | Some (_, k) => Raise (KeyError k)
    end
  ∧ (first_missing_read self b = None
     ↔ has_keys b metric_fields = true
       ∧ has_keys (ai_improvements self) factor_names = true).
Proof.
  intros Hb.
  destruct (calculate_ai_impact_metrics_run self h bl b Hb) as (m & -> & _).
  pose proof (improved_items_first_missing self b) as H.
  split; [|apply first_missing_read_None].
  cbn [fst]. destruct (improved_items self b), (first_missing_read self b) as [[? k]|];
    try done. by subst.
Qed.

Lemma calculate_ai_impact_metrics_outcome_witness :
  (calculate_ai_impact_metrics analyzer0 1%positive (heap_of baseline_no_cost)).1
  = Raise (KeyError "cost_per_patient").
Proof.
  exact (proj1 (calculate_ai_impact_metrics_outcome analyzer0 (heap_of baseline_no_cost)
                  1%positive baseline_no_cost eq_refl)).
Defined.

Lemma calculate_ai_impact_metrics_Ok_inv self (h : heap) bl b l' h' :
  h !! bl = Some b →
  calculate_ai_impact_metrics self bl h = (Ok l', h') →
  ∃ m, h' !! l' = Some m ∧ improved_items self b = Ok m.
Proof.
  intros Hb Hrun.
  destruct (calculate_ai_impact_metrics_run self h bl b Hb) as (m & Hm & Hok).
  rewrite Hrun in Hm.
  destruct (improved_items self b) as [m'|] eqn:E; [|discriminate].
  injection Hm as -> ->. rewrite (Hok m' eq_refl).
  exists m'. split; [apply lookup_insert_eq | done].
Qed.

Lemma improved_items_rule self b m k f scale :
  improved_items self b = Ok m →
  (k, f, scale) ∈ improvement_rules →
  item m k = item b k * scale (item (ai_improvements self) f)
  ∧ ∀ g, scale g = 1 - g ∨ scale g = 1 + g.
Proof.
  intros E Hin.
  apply improved_items_Ok_inv in E
    as (x1 & g1 & x2 & g2 & x3 & g3 & x4 & g4 & x5 & g5
        & H1 & G1 & H2 & G2 & H3 & G3 & H4 & G4 & H5 & G5 & ->).
  unfold improvement_rules in Hin. unfold item.
  repeat (apply elem_of_cons in Hin as [[= -> -> ->] | Hin];
          [split; [by simplify_map_eq | by eauto]|]).
  by apply elem_of_nil in Hin.
Qed.

Lemma run_baseline_test :
  calculate_ai_impact_metrics analyzer0 1%positive (heap_of baseline_test)
  = (Ok 2%positive, heap_after_test).
Proof.
  transitivity
    ((calculate_ai_impact_metrics analyzer0 1%positive (heap_of baseline_test)).1,
     heap_after_test); [apply surjective_pairing|].
  apply (f_equal (λ r, (r, heap_after_test))). vm_compute. reflexivity.
Qed.

(** Every improved metric is the baseline metric times [1 - factor]
    (times [1 + factor] for the throughput); a factor of 0 leaves the
    metric as it was. *)
Theorem calculate_ai_impact_metrics_values self (h : heap) bl b l' h' :
  h !! bl = Some b →
  calculate_ai_impact_metrics self bl h = (Ok l', h') →
  ∃ m, h' !! l' = Some m
       ∧ ∀ k f scale, (k, f, scale) ∈ improvement_rules →
           item m k = item b k * scale (item (ai_improvements self) f)
           ∧ (item (ai_improvements self) f == 0 → item m k == item b k).
Proof.
  intros Hb Hrun.
  destruct (calculate_ai_impact_metrics_Ok_inv self h bl b l' h' Hb Hrun) as (m & Hm & E).
  exists m. split; [done|]. intros k f scale Hin.
  destruct (improved_items_rule self b m k f scale E Hin) as [Heq Hval].
  split; [done|]. intros Hz. rewrite Heq.
  destruct (Hval (item (ai_improvements self) f)) as [-> | ->]; rewrite Hz; ring.
Qed.

Lemma calculate_ai_impact_metrics_values_witness :
  ∃ m, heap_after_test !! 2%positive = Some m
       ∧ item m "patients_per_worker" = 20 * (1 + 0.24).
Proof.
  destruct (calculate_ai_impact_metrics_values analyzer0 (heap_of baseline_test)
              1%positive baseline_test 2%positive heap_after_test eq_refl
              run_baseline_test) as (m & Hm & Hrule).
  exists m. split; [done|].
  apply (Hrule "patients_per_worker" "throughput_increase" (λ g, 1 + g)).
  unfold improvement_rules. in_list.
Defined.

Lemma all_items_spec (P : Q → bool) d ks :
  all_items P d ks = true ↔ ∀ k, k ∈ ks → P (item d k) = true.
Proof.
  unfold all_items. rewrite forallb_forall.
  split; intros H k Hk; apply H; by apply list_elem_of_In.
Qed.

(** A valid baseline stays valid: with non-negative metrics, reduction
    factors in [0, 1] and a non-negative throughput increase, the four
    lower-is-better metrics end between 0 and their baseline, the throughput
    does not fall, and an error rate at most 1 stays at most 1. *)
Theorem calculate_ai_impact_metrics_valid self (h : heap) bl b l' h' :
  h !! bl = Some b →
  calculate_ai_impact_metrics self bl h = (Ok l', h') →
  all_items (Qle_bool 0) b metric_fields = true →
  all_items (Qle_bool 0) (ai_improvements self) factor_names = true →
  all_items (λ g, Qle_bool g 1) (ai_improvements self) reduction_factors = true →
  ∃ m, h' !! l' = Some m
       ∧ (∀ k, k ∈ metric_fields → k ≠ "patients_per_worker" →
               0 <= item m k ∧ item m k <= item b k)
       ∧ item b "patients_per_worker" <= item m "patients_per_worker"
       ∧ (item b "billing_error_rate" <= 1 → item m "billing_error_rate" <= 1).
Proof.
  intros Hb Hrun Hpos Hf0 Hf1.
  destruct (calculate_ai_impact_metrics_Ok_inv self h bl b l' h' Hb Hrun) as (m & Hm & E).
  exists m. split; [done|].
  pose proof (proj1 (all_items_spec _ _ _) Hpos) as Hpos'.
  pose proof (proj1 (all_items_spec _ _ _) Hf0) as Hf0'.
  pose proof (proj1 (all_items_spec _ _ _) Hf1) as Hf1'.
  assert (Hred : ∀ k f, (k, f, λ g : Q, 1 - g) ∈ improvement_rules →
                 k ∈ metric_fields → f ∈ factor_names → f ∈ reduction_factors →
                 0 <= item m k ∧ item m k <= item b k).
  { intros k f Hin Hk Hf Hf'.
    destruct (improved_items_rule self b m k f _ E Hin) as [-> _].
    pose proof (Hpos' k Hk) as H1. pose proof (Hf1' f Hf') as H2.
    pose proof (Hf0' f Hf) as H3.
    apply Qle_bool_iff in H1, H2, H3. split; nra. }
  assert (Herr : 0 <= item m "billing_error_rate"
                 ∧ item m "billing_error_rate" <= item b "billing_error_rate").
  { apply (Hred _ "error_reduction");
      unfold improvement_rules, metric_fields, factor_names, reduction_factors; in_list. }
  split; [|split].
  - intros k Hk Hne. unfold metric_fields in Hk.
    repeat (apply elem_of_cons in Hk as [-> | Hk]);
      [ apply (Hred _ "admin_efficiency_gain")
      | apply (Hred _ "processing_speed_gain")
      | exact Herr
      | done
      | apply (Hred _ "cost_reduction")
      | by apply elem_of_nil in Hk ];
      unfold improvement_rules, metric_fields, factor_names, reduction_factors; in_list.
  - destruct (improved_items_rule self b m "patients_per_worker" "throughput_increase"
                (λ g, 1 + g) E) as [-> _]; [unfold improvement_rules; in_list|].
    pose proof (Hpos' "patients_per_worker" ltac:(unfold metric_fields; in_list)) as H1.
    pose proof (Hf0' "throughput_increase" ltac:(unfold factor_names; in_list)) as H2.
    apply Qle_bool_iff in H1, H2. nra.
  - intros H1. destruct Herr as [_ Hle]. lra.
Qed.

Lemma calculate_ai_impact_metrics_valid_witness :
  ∃ m, heap_after_test !! 2%positive = Some m
       ∧ item baseline_test "patients_per_worker" <= item m "patients_per_worker".
Proof.
  destruct (calculate_ai_impact_metrics_valid analyzer0 (heap_of baseline_test)
              1%positive baseline_test 2%positive heap_after_test eq_refl
              run_baseline_test)
    as (m & Hm & _ & Hppw & _); [vm_compute; reflexivity ..|].
  by exists m.
Defined.

(** ** [calculate_cost_savings] *)

Lemma from_ok_eq {A : Type} (d : A) (c : outcome A) :
  is_Ok c = true → c = Ok (from_ok d c).
Proof. by destruct c. Qed.

Lemma has_keys_item {V : Type} (d : gmap string V) ks k :
  has_keys d ks = true → k ∈ ks → ∃ v, d !! k = Some v.
Proof. intros H Hk. destruct (proj1 (has_keys_spec d ks) H k Hk) as [v ?]. eauto. Qed.

(** What a call returns when everything it reads is there. *)
Lemma calculate_cost_savings_Ok self b ai
    wage mult b_hours a_hours b_err a_err b_cost b_ppw a_ppw b_time a_time :
  japan_constants self !! "average_hourly_wage" = Some wage →
  japan_constants self !! "error_cost_multiplier" = Some mult →
  b !! "admin_hours_per_patient" = Some b_hours →
  ai !! "admin_hours_per_patient" = Some a_hours →
  b !! "billing_error_rate" = Some b_err →
  ai !! "billing_error_rate" = Some a_err →
  b !! "cost_per_patient" = Some b_cost →
  b !! "patients_per_worker" = Some b_ppw →
  ai !! "patients_per_worker" = Some a_ppw →
  b !! "processing_time_hours" = Some b_time →
  ai !! "processing_time_hours" = Some a_time →
  Qeq_bool b_ppw 0 = false →
  ∃ s, calculate_cost_savings self b ai = Ok s.
Proof.
  intros Hw Hm H1 H2 H3 H4 H5 H6 H7 H8 H9 Hnz.
  unfold calculate_cost_savings, getitem, py_div. cbv zeta.
  rewrite Hw, Hm, H1, H2, H3, H4, H5, H6, H7, H8, H9.
  cbn [mbind outcome_mbind outcome_bind]. rewrite Hnz.
  cbn [mbind outcome_mbind outcome_bind].
  rewrite !lookup_insert_eq.
  repeat (rewrite lookup_insert_ne by done; rewrite ?lookup_insert_eq).
  cbn [mbind outcome_mbind outcome_bind]. eauto.
Qed.

(** On Python numbers the savings decomposer returns exactly when the
    baseline has the five metrics, the improved metrics the four it reads,
    the constants the wage and the error-cost multiplier, and the baseline
    throughput is not zero.  What it returns has exactly the five savings
    keys. *)
Theorem calculate_cost_savings_returns self b ai :
  (is_Ok (calculate_cost_savings self b ai) = true
   ↔ has_keys b metric_fields = true
     ∧ has_keys ai improved_fields_read = true
     ∧ has_keys (japan_constants self) cost_constants = true
     ∧ Qeq_bool (item b "patients_per_worker") 0 = false)
  ∧ (∀ s, calculate_cost_savings self b ai = Ok s →
       dom s = list_to_set savings_fields).
Proof.
  split; [split|].
  - destruct (calculate_cost_savings self b ai) as [s|e] eqn:E; [|discriminate].
    intros _. apply calculate_cost_savings_Ok_inv in E
      as (wage & mult & b_hours & a_hours & b_err & a_err & b_cost & b_ppw & a_ppw
          & b_time & a_time & Hw & Hm & H1 & H2 & H3 & H4 & H5 & H6 & H7 & H8 & H9
          & Hnz & _).
    unfold has_keys, metric_fields, improved_fields_read, cost_constants, item.
    cbn [forallb]. rewrite Hw, Hm, H1, H2, H3, H4, H5, H6, H7, H8, H9. cbn.
    repeat split. destruct (Qeq_bool b_ppw 0) eqn:Ez; [|done].
    by apply Qeq_bool_iff in Ez.
  - intros (Hb & Hai & Hc & Hnz).
    unfold metric_fields, improved_fields_read, cost_constants in *.
    destruct (has_keys_item _ _ "average_hourly_wage" Hc) as [wage Hw]; [in_list|].
    destruct (has_keys_item _ _ "error_cost_multiplier" Hc) as [mult Hm]; [in_list|].
    destruct (has_keys_item _ _ "admin_hours_per_patient" Hb) as [? H1]; [in_list|].
    destruct (has_keys_item _ _ "admin_hours_per_patient" Hai) as [? H2]; [in_list|].
    destruct (has_keys_item _ _ "billing_error_rate" Hb) as [? H3]; [in_list|].
    destruct (has_keys_item _ _ "billing_error_rate" Hai) as [? H4]; [in_list|].
    destruct (has_keys_item _ _ "cost_per_patient" Hb) as [? H5]; [in_list|].
    destruct (has_keys_item _ _ "patients_per_worker" Hb) as [? H6]; [in_list|].
    destruct (has_keys_item _ _ "patients_per_worker" Hai) as [? H7]; [in_list|].
    destruct (has_keys_item _ _ "processing_time_hours" Hb) as [? H8]; [in_list|].
    destruct (has_keys_item _ _ "processing_time_hours" Hai) as [? H9]; [in_list|].
    unfold item in Hnz. rewrite H6 in Hnz. cbn in Hnz.
    destruct (calculate_cost_savings_Ok self b ai _ _ _ _ _ _ _ _ _ _ _
                Hw Hm H1 H2 H3 H4 H5 H6 H7 H8 H9 Hnz) as [s ->].
    done.
  - intros s E. apply calculate_cost_savings_Ok_inv in E
      as (wage & mult & b_hours & a_hours & b_err & a_err & b_cost & b_ppw & a_ppw
          & b_time & a_time & _ & _ & _ & _ & _ & _ & _ & _ & _ & _ & _ & _ & ->).
    cbv zeta. unfold savings_fields. rewrite !dom_insert_L, dom_empty_L. cbn.
    set_solver.
Qed.

Lemma calculate_cost_savings_returns_witness :
  is_Ok (calculate_cost_savings analyzer0 baseline_test improved_test) = true.
Proof.
  apply (proj1 (calculate_cost_savings_returns analyzer0 baseline_test improved_test)).
  repeat split; vm_compute; reflexivity.
Defined.

(** The improved ['cost_per_patient'] is never read: two improved dicts
    that agree on the four metrics the decomposer reads give the same
    outcome, so the savings do not depend on the cost-reduction factor. *)
Theorem calculate_cost_savings_ignores_improved_cost self b ai ai' :
  (∀ k, k ∈ improved_fields_read → ai !! k = ai' !! k) →
  calculate_cost_savings self b ai = calculate_cost_savings self b ai'.
Proof.
  intros H. unfold improved_fields_read in H.
  unfold calculate_cost_savings, getitem.
  rewrite (H "admin_hours_per_patient"), (H "billing_error_rate"),
    (H "patients_per_worker"), (H "processing_time_hours") by in_list.
  reflexivity.
Qed.

Lemma calculate_cost_savings_ignores_improved_cost_witness :
  calculate_cost_savings analyzer0 baseline_test improved_test
  = calculate_cost_savings analyzer0 baseline_test
      (<["cost_per_patient" := 1]> improved_test).
Proof.
  apply calculate_cost_savings_ignores_improved_cost.
  intros k Hk. unfold improved_fields_read in Hk.
  repeat (apply elem_of_cons in Hk as [-> | Hk]; [reflexivity|]).
  by apply elem_of_nil in Hk.
Defined.



Lemma savings_from_test_run :
  calculate_cost_savings analyzer0 baseline_test improved_from_test = Ok savings_from_test.
Proof. apply from_ok_eq. vm_compute. reflexivity. Qed.


(** When the improved metrics are no worse than the baseline (lower
    hours, error rate and processing time, higher throughput over a positive
    baseline throughput) and the baseline error rate, cost, wage and
    multiplier are non-negative, every category and the total are
    non-negative. *)
Theorem calculate_cost_savings_nonneg self b ai s :
  calculate_cost_savings self b ai = Ok s →
  item ai "admin_hours_per_patient" <= item b "admin_hours_per_patient" →
  item ai "billing_error_rate" <= item b "billing_error_rate" →
  item ai "processing_time_hours" <= item b "processing_time_hours" →
  item b "patients_per_worker" <= item ai "patients_per_worker" →
  0 < item b "patients_per_worker" →
  0 <= item b "billing_error_rate" →
  0 <= item b "cost_per_patient" →
  0 <= item (japan_constants self) "average_hourly_wage" →
  0 <= item (japan_constants self) "error_cost_multiplier" →
  ∀ k, k ∈ savings_fields → 0 <= item s k.
Proof.
  intros Hs. apply calculate_cost_savings_Ok_inv in Hs
    as (wage & mult & b_hours & a_hours & b_err & a_err & b_cost & b_ppw & a_ppw
        & b_time & a_time & Hw & Hmu & B1 & A1 & B3 & A3 & B5 & B4 & A4 & B2 & A2
        & Hnz & ->).
  unfold item at 1 2 3 4 5 6 7 8 9 10 11 12 13.
  rewrite Hw, Hmu, B1, A1, B3, A3, B5, B4, A4, B2, A2. cbn [default from_option].
  unfold id. intros L1 L3 L2 L4 Hpos E0 C0 W0 M0. cbv zeta.
  assert (R : 0 <= a_ppw / b_ppw - 1).
  { assert (1 <= a_ppw / b_ppw); [|lra].
    apply Qle_shift_div_l; [done | lra]. }
  assert (S1 : 0 <= (b_hours - a_hours) * 47000000 * wage) by nra.
  assert (S2 : 0 <= (b_err - a_err) * (b_cost * b_err * mult) * 47000000).
  { assert (0 <= b_cost * b_err) by nra.
    assert (0 <= b_cost * b_err * mult) by nra. nra. }
  assert (S3 : 0 <= 47000000 * (a_ppw / b_ppw - 1) * (b_cost * 0.7)) by nra.
  assert (S4 : 0 <= (b_time - a_time) * 47000000 * 0.1 * wage) by nra.
  intros k Hk. unfold savings_fields in Hk. unfold item.
  repeat (apply elem_of_cons in Hk as [-> | Hk]);
    [ .. | by apply elem_of_nil in Hk ];
    repeat (rewrite lookup_insert_ne by done); rewrite lookup_insert_eq;
    cbn [default from_option]; unfold id; try done.
  unfold py_sum. cbn [fold_left]. lra.
Qed.

Lemma calculate_cost_savings_nonneg_witness :
  0 <= item savings_from_test "total_annual_savings".
Proof.
  apply (calculate_cost_savings_nonneg analyzer0 baseline_test improved_from_test
           savings_from_test savings_from_test_run);
    solve [vm_compute; discriminate | vm_compute; reflexivity
          | unfold savings_fields; in_list].
Defined.

(** ** [calculate_roi_analysis] *)


Lemma calculate_roi_analysis_Ok_inv self sv years r :
  calculate_roi_analysis self sv years = Ok r →
  ∃ u m a, implementation_costs self = Ok (u, m)
           ∧ sv !! "total_annual_savings" = Some a.
Proof.
  unfold calculate_roi_analysis. intros H.
  apply bind_Ok_inv in H as ([u m] & Hc & H).
  apply bind_Ok_inv in H as (a & Ha & _).
  apply getitem_Ok in Ha. eauto.
Qed.



Lemma last_map_py_range {A : Type} (f : Z → A) (years : Z) :
  (1 ≤ years)%Z → last (f <$> py_range 1 (years + 1)) = Some (f years).
Proof.
  intros H. rewrite py_range_to_nat.
  destruct (Z.to_nat years) as [|n] eqn:E; [lia|].
  rewrite py_range_snoc, fmap_app.
  change (f <$> [Z.of_nat (S n)]) with [f (Z.of_nat (S n))].
  rewrite last_snoc. do 2 f_equal. lia.
Qed.

(** The terminal scalars repeat the last yearly record: for a horizon of at
    least one year, [net_benefit] is its [cumulative_net] and
    [total_roi_percentage] its [roi_percentage]; [total_savings] is the net
    benefit plus the upfront cost; and with a positive upfront cost every
    year's [roi_percentage] is [cumulative_net / upfront_cost * 100]. *)
Theorem calculate_roi_analysis_terminal self sv years r u m :
  calculate_roi_analysis self sv years = Ok r →
  implementation_costs self = Ok (u, m) →
  (1 ≤ years)%Z →
  (∃ final, last (yearly_analysis r) = Some final
            ∧ year final = years
            ∧ roi_net_benefit r = cumulative_net final
            ∧ total_roi_percentage r = roi_percentage final)
  ∧ total_savings r = roi_net_benefit r + u
  ∧ (0 < u → ∀ rec, rec ∈ yearly_analysis r →
             roi_percentage rec = cumulative_net rec / u * 100).
Proof.
  intros Hr Hc Hy.
  destruct (calculate_roi_analysis_Ok_inv _ _ _ _ Hr) as (u' & m' & a & Hc' & Ha).
  rewrite Hc in Hc'. injection Hc' as <- <-.
  rewrite (calculate_roi_analysis_run self sv years u m a Hc Ha) in Hr.
  injection Hr as <-. cbn. split; [|split; [done|]].
  - exists (year_entry a u m years).
    change (map (year_entry a u m)) with (fmap (M := list) (year_entry a u m)).
    by rewrite last_map_py_range.
  - intros Hu rec Hin. apply elem_of_yearly in Hin as (y & _ & ->). cbn.
    unfold roi_value. by rewrite (proj2 (Qgt_bool_true u 0) Hu).
Qed.

Lemma calculate_roi_analysis_terminal_witness :
  ∃ r, calculate_roi_analysis analyzer0 savings_test 5 = Ok r
       ∧ total_savings r = roi_net_benefit r + 3e12.
Proof.
  pose proof (calculate_roi_analysis_run analyzer0 savings_test 5 3e12 0.6e12 1e12
                eq_refl eq_refl) as Hr.
  eexists. split; [exact Hr|].
  apply (calculate_roi_analysis_terminal analyzer0 savings_test 5 _ 3e12 0.6e12 Hr);
    [reflexivity | lia].
Defined.

(** The upfront cost plays no part in the payback period: two analyzers
    with the same annual maintenance but different upfront costs report
    the same yearly net benefits and cumulative net benefits, and the same
    payback year. *)
Theorem calculate_roi_analysis_payback_ignores_upfront
    self1 self2 sv years u1 u2 m r1 r2 :
  implementation_costs self1 = Ok (u1, m) →
  implementation_costs self2 = Ok (u2, m) →
  calculate_roi_analysis self1 sv years = Ok r1 →
  calculate_roi_analysis self2 sv years = Ok r2 →
  payback_period_years r1 = payback_period_years r2
  ∧ map cumulative_net (yearly_analysis r1) = map cumulative_net (yearly_analysis r2)
  ∧ map net_benefit (yearly_analysis r1) = map net_benefit (yearly_analysis r2)
  ∧ roi_net_benefit r1 = roi_net_benefit r2.
Proof.
  intros Hc1 Hc2 Hr1 Hr2.
  destruct (calculate_roi_analysis_Ok_inv _ _ _ _ Hr1) as (u & m' & a & Hc & Ha).
  rewrite Hc1 in Hc. injection Hc as <- <-.
  rewrite (calculate_roi_analysis_run self1 sv years u1 m a Hc1 Ha) in Hr1.
  rewrite (calculate_roi_analysis_run self2 sv years u2 m a Hc2 Ha) in Hr2.
  injection Hr1 as <-. injection Hr2 as <-. cbn.
  rewrite !payback_loop_find by apply year_entry_year.
  rewrite !map_map. done.
Qed.

Lemma calculate_roi_analysis_payback_ignores_upfront_witness :
  ∃ r1 r2,
    calculate_roi_analysis analyzer_no_upfront savings_test 5 = Ok r1
    ∧ calculate_roi_analysis analyzer_upfront savings_test 5 = Ok r2
    ∧ payback_period_years r1 = payback_period_years r2.
Proof.
  pose proof (calculate_roi_analysis_run analyzer_no_upfront savings_test 5
                (0 + 0 + 0) (0 + 0.2e12 + 0.1e12) 1e12 eq_refl eq_refl) as H1.
  pose proof (calculate_roi_analysis_run analyzer_upfront savings_test 5
                (0 + 1e12 + 2e12) (0 + 0.2e12 + 0.1e12) 1e12 eq_refl eq_refl) as H2.
  eexists _, _. split; [exact H1|]. split; [exact H2|].
  exact (proj1 (calculate_roi_analysis_payback_ignores_upfront analyzer_no_upfront
                  analyzer_upfront savings_test 5 _ _ _ _ _ eq_refl eq_refl H1 H2)).
Defined.

Lemma running_net_first a m : running_net a m 1 == a - m.
Proof.
  unfold running_net. change (py_range 1 (1 + 1)) with [1%Z].
  cbn [map fold_left]. unfold yearly_net. change (1.05 ^ (1 - 1)) with 1. ring.
Qed.

(** The payback period is year 1 exactly when the horizon has a first year
    and the annual savings cover the annual maintenance; the upfront cost is
    not weighed against them. *)
Theorem calculate_roi_analysis_payback_first_year self sv years u m a r :
  implementation_costs self = Ok (u, m) →
  sv !! "total_annual_savings" = Some a →
  calculate_roi_analysis self sv years = Ok r →
  payback_period_years r = Some 1%Z ↔ (1 ≤ years)%Z ∧ m <= a.
Proof.
  intros Hc Ha Hr.
  rewrite (calculate_roi_analysis_run self sv years u m a Hc Ha) in Hr.
  injection Hr as <-. cbn [payback_period_years].
  rewrite payback_loop_find by apply year_entry_year.
  rewrite find_horizon_Some. cbn [cumulative_net year_entry].
  rewrite Qle_bool_iff, running_net_first. split.
  - intros ([_ Hy] & Hle & _). split; [done | lra].
  - intros [Hy Hle]. split; [lia|]. split; [lra|]. intros y' Hy'. lia.
Qed.

Lemma calculate_roi_analysis_payback_first_year_witness :
  ∃ r, calculate_roi_analysis analyzer0 savings_test 5 = Ok r
       ∧ payback_period_years r = Some 1%Z.
Proof.
  pose proof (calculate_roi_analysis_run analyzer0 savings_test 5 3e12 0.6e12 1e12
                eq_refl eq_refl) as Hr.
  eexists. split; [exact Hr|].
  apply (calculate_roi_analysis_payback_first_year analyzer0 savings_test 5
           3e12 0.6e12 1e12 _ eq_refl eq_refl Hr).
  split; [lia | vm_compute; discriminate].
Defined.






